(** * EvidenceFinder: the search page and its evidence cards

    A shallow embedding of the client of the evidence finder:
    [src/src/components/EvidenceCard.tsx] (the card and its two formatting
    helpers), the [FilterChips] component and the [Home] page (search
    session, filter selection, rotating status message, catalog loader).

    Strings are [string]: one character per UTF-16 code unit, restricted to
    the code units below 256.  On that range the ECMAScript primitives used
    by the page ([trim], [toLowerCase], [includes], [replace] with a string
    pattern) are given exactly. *)

From Stdlib Require Import Strings.String Strings.Ascii Lists.List Bool.Bool.
From Stdlib Require Import Arith.Arith Arith.PeanoNat micromega.Lia QArith.QArith_base.
Import ListNotations.

Set Warnings "-register-all".
Set Default Proof Using "Type".

Local Open Scope list_scope.
Local Open Scope string_scope.
Local Open Scope nat_scope.

(* ================================================================== *)
(** * Part I.  Definitions *)
(* ================================================================== *)

(** ** ECMAScript string and array primitives *)

Module JS.

(** WhiteSpace and LineTerminator code units below 256: TAB, LF, VT, FF,
    CR, SP and NBSP. *)
Definition is_white_space (c : ascii) : bool :=
  let n := nat_of_ascii c in
  (n =? 9) || (n =? 10) || (n =? 11) || (n =? 12) || (n =? 13)
  || (n =? 32) || (n =? 160).

Fixpoint trimStart (s : string) : string :=
  match s with
  | EmptyString => EmptyString
  | String c s' => if is_white_space c then trimStart s' else s
  end.

Fixpoint trimEnd (s : string) : string :=
  match s with
  | EmptyString => EmptyString
  | String c s' =>
      match trimEnd s' with
      | EmptyString => if is_white_space c then EmptyString else String c EmptyString
      | t => String c t
      end
  end.

(** [String.prototype.trim] *)
Definition trim (s : string) : string := trimEnd (trimStart s).

(** Lower-case mapping of one code unit below 256: A-Z, and the Latin-1
    capitals U+00C0..U+00DE except the multiplication sign U+00D7. *)
Definition lower_char (c : ascii) : ascii :=
  let n := nat_of_ascii c in
  if ((65 <=? n) && (n <=? 90))
     || ((192 <=? n) && (n <=? 222) && negb (n =? 215))
  then ascii_of_nat (n + 32)
  else c.

(** [String.prototype.toLowerCase] *)
Fixpoint toLowerCase (s : string) : string :=
  match s with
  | EmptyString => EmptyString
  | String c s' => String (lower_char c) (toLowerCase s')
  end.

(** [String.prototype.startsWith] at position 0. *)
Fixpoint startsWith (s p : string) {struct p} : bool :=
  match p with
  | EmptyString => true
  | String a p' =>
      match s with
      | EmptyString => false
      | String b s' => Ascii.eqb a b && startsWith s' p'
      end
  end.

(** [String.prototype.includes]: some suffix of [s] starts with [p]. *)
Fixpoint includes (s p : string) : bool :=
  if startsWith s p then true
  else match s with
       | EmptyString => false
       | String _ s' => includes s' p
       end.

Fixpoint drop (n : nat) (s : string) : string :=
  match n, s with
  | O, _ => s
  | S n', String _ s' => drop n' s'
  | S _, EmptyString => EmptyString
  end.

(** [String.prototype.replace] with a string pattern and a replacement
    that holds no dollar sign: only the first occurrence is replaced. *)
Fixpoint replace (s pat rep : string) : string :=
  if startsWith s pat then rep ++ drop (String.length pat) s
  else match s with
       | EmptyString => EmptyString
       | String c s' => String c (replace s' pat rep)
       end.

(** [Array.prototype.includes] on an array of strings. *)
Definition arr_includes (l : list string) (x : string) : bool :=
  existsb (String.eqb x) l.

(** Truthiness of a string value. *)
Definition truthy (s : string) : bool :=
  match s with EmptyString => false | _ => true end.

End JS.

(** [occurs p s]: [p] is a substring of [s]. *)
Definition occurs (p s : string) : Prop :=
  exists pre post, s = pre ++ p ++ post.


(** ** A hostname oracle for concrete runs

    [new URL(link).hostname] is computed by the platform.  Inside
    [Section Platform] it is a variable, and the general statements hold for
    every such function.  [basic_URL_hostname] is not the platform's parser:
    it is an instance for concrete runs only.  It accepts [http://] and
    [https://] followed by a host made of non-empty labels of lower-case
    ASCII letters separated by single dots, ended by the end of the string
    or a slash, and returns that host, as the platform does.  On every other
    string it answers [None]; that is what the platform does for a string
    without a scheme, but not for the links with digits, hyphens, ports,
    upper case or a query after the host, which the platform parses.  The
    concrete runs use it on links of the accepted form and on strings
    without a scheme only. *)

Definition is_lower_alpha (c : ascii) : bool :=
  let n := nat_of_ascii c in (97 <=? n) && (n <=? 122).

Fixpoint until_slash (s : string) : string :=
  match s with
  | EmptyString => EmptyString
  | String c s' => if Ascii.eqb c "/" then EmptyString else String c (until_slash s')
  end.

Fixpoint labels_ok (fresh : bool) (s : string) : bool :=
  match s with
  | EmptyString => negb fresh
  | String c s' =>
      if is_lower_alpha c then labels_ok false s'
      else if Ascii.eqb c "." then negb fresh && labels_ok true s'
      else false
  end.

Definition basic_URL_hostname (link : string) : option string :=
  let after :=
    if JS.startsWith link "https://" then Some (JS.drop 8 link)
    else if JS.startsWith link "http://" then Some (JS.drop 7 link)
    else None in
  match after with
  | None => None
  | Some rest =>
      let host := until_slash rest in
      if labels_ok true host then Some host else None
  end.

(** ** Words of the specification

    The relation keywords are lower-case ASCII words.  [mentions text
    keyword] says that the keyword stands somewhere in the text, each of
    its letters written in lower or in upper case; it is given without any
    case conversion of the text. *)

(** [c] is the keyword letter [k] or its capital, 32 code units below. *)
Definition same_letter (c k : ascii) : bool :=
  Ascii.eqb c k || (nat_of_ascii c + 32 =? nat_of_ascii k).

Fixpoint spelled_at_start (text keyword : string) {struct keyword} : bool :=
  match keyword with
  | EmptyString => true
  | String k keyword' =>
      match text with
      | EmptyString => false
      | String c text' => same_letter c k && spelled_at_start text' keyword'
      end
  end.

Fixpoint mentions (text keyword : string) : bool :=
  if spelled_at_start text keyword then true
  else match text with
       | EmptyString => false
       | String _ text' => mentions text' keyword
       end.

Definition lowercase_word (keyword : string) : bool :=
  forallb is_lower_alpha (list_ascii_of_string keyword).

(** ** Data model (the interfaces of [EvidenceCard.tsx] and of the page) *)

(** A JSON number, kept as the rational its literal denotes; the page only
    formats it. *)
Definition number := Q.

Record EvidenceCardData := mkCard {
  id : string;
  title : string;
  link : string;
  snippet : string;
  description : string;
  relation_to_claim : string;
  source_type : string;
  relevance_score : number
}.

Record SearchResponse := mkResponse {
  resp_query : string;
  evidence_cards : list EvidenceCardData;
  total_results : nat
}.

Record SourceType := mkSourceType {
  value : string;
  label : string
}.

(** ** Rendered output *)

(** Literal symbols of the markup that lie outside the Latin-1 range. *)
Inductive Glyph :=
| CheckMark | CrossMark | Clipboard | WavyDash | LinkSymbol
| MagnifyingGlass | Microscope.

(** Numbers interpolated into the markup, left unformatted. *)
Inductive NumExpr :=
| Plain (n : nat)
| Times100 (x : number)
| RoundTimes100 (x : number).

(** Event handlers attached to elements. *)
Inductive Handler :=
| OnSubmit            (* handleSearch *)
| OnChange            (* setQuery(e.target.value) *)
| OnKeyPress          (* handleKeyPress *)
| OnToggle (v : string).

Inductive AttrVal :=
| AStr (s : string)
| ABool (b : bool)
| ANum (e : NumExpr)
| AHandler (h : Handler).

(** React elements: host elements, text, and references to the three
    components of the repository with their props. *)
Inductive Node :=
| Text (s : string)
| Sym (g : Glyph)
| Num (e : NumExpr)
| Elem (tag className : string) (attrs : list (string * AttrVal)) (children : list Node)
| ParticlesC
| FilterChipsC (sourceTypes : list SourceType) (selectedTypes : list string)
| EvidenceCardC (key : string) (props : EvidenceCardData).

(** [{cond && <X/>}] *)
Definition when (cond : bool) (n : Node) : list Node :=
  if cond then [n] else [].

(** ** Page state, requests and outcomes *)

Record State := mkState {
  query : string;
  results : option SearchResponse;
  isLoading : bool;
  error : option string;
  sourceTypes : list SourceType;
  selectedTypes : list string;
  hasSearched : bool;
  loadingMessage : string
}.

Definition setQuery v (st : State) :=
  mkState v (results st) (isLoading st) (error st) (sourceTypes st)
          (selectedTypes st) (hasSearched st) (loadingMessage st).
Definition setResults v (st : State) :=
  mkState (query st) v (isLoading st) (error st) (sourceTypes st)
          (selectedTypes st) (hasSearched st) (loadingMessage st).
Definition setIsLoading v (st : State) :=
  mkState (query st) (results st) v (error st) (sourceTypes st)
          (selectedTypes st) (hasSearched st) (loadingMessage st).
Definition setError v (st : State) :=
  mkState (query st) (results st) (isLoading st) v (sourceTypes st)
          (selectedTypes st) (hasSearched st) (loadingMessage st).
Definition setSourceTypes v (st : State) :=
  mkState (query st) (results st) (isLoading st) (error st) v
          (selectedTypes st) (hasSearched st) (loadingMessage st).
Definition setSelectedTypes (f : list string -> list string) (st : State) :=
  mkState (query st) (results st) (isLoading st) (error st) (sourceTypes st)
          (f (selectedTypes st)) (hasSearched st) (loadingMessage st).
Definition setHasSearched v (st : State) :=
  mkState (query st) (results st) (isLoading st) (error st) (sourceTypes st)
          (selectedTypes st) v (loadingMessage st).
Definition setLoadingMessage v (st : State) :=
  mkState (query st) (results st) (isLoading st) (error st) (sourceTypes st)
          (selectedTypes st) (hasSearched st) v.

(** The [useState] initial values. *)
Definition initial_state : State :=
  mkState "" None false None [] [] false "ANALYZING EVIDENCE...".

Inductive JSON :=
| JNull
| JString (s : string)
| JArray (l : list JSON)
| JObject (fields : list (string * JSON)).

Record Request := mkRequest {
  url : string;
  method : string;
  headers : list (string * string);
  body : option JSON
}.

(** What a [catch] clause receives. *)
Inductive Thrown :=
| ErrorObject (message : string)     (* err instanceof Error *)
| NonError.

Inductive Body (A : Type) :=
| JsonRejected (t : Thrown)          (* response.json() rejects *)
| JsonParsed (data : A).
Arguments JsonRejected {A} t.
Arguments JsonParsed {A} data.

(** How a [fetch] settles: it rejects, or resolves with a response whose
    [ok] flag tells a 2xx status. *)
Inductive Outcome (A : Type) :=
| FetchRejected (t : Thrown)
| Responded (ok : bool) (b : Body A).
Arguments FetchRejected {A} t.
Arguments Responded {A} ok b.

(** The interval registered by [setInterval], with the [index] variable its
    callback closes over; [elapsed] counts the milliseconds since the
    registration or the last firing. *)
Record Interval := mkInterval {
  delay : nat;
  elapsed : nat;
  index : nat
}.

(** The page: React state, the live interval of the rotator effect, and
    the two observable logs (requests issued, console.error calls). *)
Record Page := mkPage {
  state : State;
  interval : option Interval;
  fetches : list Request;
  console_errors : list (string * Thrown)
}.

Definition with_state (f : State -> State) (p : Page) : Page :=
  mkPage (f (state p)) (interval p) (fetches p) (console_errors p).
Definition with_interval (i : option Interval) (p : Page) : Page :=
  mkPage (state p) i (fetches p) (console_errors p).
Definition issue (r : Request) (p : Page) : Page :=
  mkPage (state p) (interval p) (fetches p ++ [r]) (console_errors p).
Definition console_error (msg : string) (t : Thrown) (p : Page) : Page :=
  mkPage (state p) (interval p) (fetches p) (console_errors p ++ [(msg, t)]).

(** ** EvidenceCard.tsx *)

(** [getRelationIcon]: the four tests in source order, then the default. *)
Definition getRelationIcon (relation : string) : Glyph :=
  let lowerRelation := JS.toLowerCase relation in
  if JS.includes lowerRelation "support" then CheckMark
  else if JS.includes lowerRelation "contradict" then CrossMark
  else if JS.includes lowerRelation "context" then Clipboard
  else if JS.includes lowerRelation "neutral" then WavyDash
  else LinkSymbol.

(** The text of the source-type badge: [source_type.replace('_', ' ')]. *)
Definition badge_text (source_type : string) : string :=
  JS.replace source_type "_" " ".

Section Platform.

(** [new URL(link).hostname]; [None] when the constructor throws. *)
Variable URL_hostname : string -> option string.

(** [window.location.hostname]; [None] where there is no [window]. *)
Variable location_hostname : option string.

(** [getDomain]: the [try] body, and the [catch] branch. *)
Definition getDomain (u : string) : string :=
  match URL_hostname u with
  | Some domain => JS.replace domain "www." ""
  | None => "source"
  end.

Definition external_link_svg : Node :=
  Elem "svg" ""
    [("width", AStr "16"); ("height", AStr "16"); ("viewBox", AStr "0 0 24 24");
     ("fill", AStr "none"); ("stroke", AStr "currentColor");
     ("strokeWidth", AStr "2"); ("strokeLinecap", AStr "round");
     ("strokeLinejoin", AStr "round")]
    [Elem "path" ""
       [("d", AStr "M18 13v6a2 2 0 0 1-2 2H5a2 2 0 0 1-2-2V8a2 2 0 0 1 2-2h6")] [];
     Elem "polyline" "" [("points", AStr "15,3 21,3 21,9")] [];
     Elem "line" ""
       [("x1", AStr "10"); ("y1", AStr "14"); ("x2", AStr "21"); ("y2", AStr "3")] []].

(** The [EvidenceCard] component. *)
Definition EvidenceCard (props : EvidenceCardData) : Node :=
  Elem "article" "evidence-card" []
    [Elem "div" "card-header" []
       [Elem "span" ("source-badge " ++ source_type props) []
          [Text (badge_text (source_type props))];
        Elem "div" "relevance-score" []
          [Elem "span" "" [] [Num (RoundTimes100 (relevance_score props)); Text "%"];
           Elem "div" "score-bar" []
             [Elem "div" "score-fill"
                [("style.width%", ANum (Times100 (relevance_score props)))] []]]];
     Elem "h3" "card-title" [] [Text (title props)];
     Elem "p" "card-description" [] [Text (description props)];
     Elem "div" ""
       [("style.marginTop", AStr "auto"); ("style.display", AStr "flex");
        ("style.flexDirection", AStr "column"); ("style.gap", AStr "1rem")]
       [Elem "div" "relation-tag" [("style.margin", AStr "0")]
          [Elem "span" "relation-icon" [] [Sym (getRelationIcon (relation_to_claim props))];
           Elem "span" "" [] [Text (relation_to_claim props)]];
        Elem "a" "card-link"
          [("href", AStr (link props)); ("target", AStr "_blank");
           ("rel", AStr "noopener noreferrer")]
          [Elem "span" "" [] [Text "View on "; Text (getDomain (link props))];
           external_link_svg]]].

(** ** FilterChips *)

Definition FilterChips (sourceTypes : list SourceType) (selectedTypes : list string) : Node :=
  Elem "div" "filter-section" []
    [Elem "p" "filter-label" [] [Text "Filter by Source Type"];
     Elem "div" "filter-container" []
       (map (fun type =>
               Elem "button"
                 ("filter-chip " ++
                    (if JS.arr_includes selectedTypes (value type) then "active" else ""))
                 [("key", AStr (value type));
                  ("onClick", AHandler (OnToggle (value type)))]
                 [Text (label type)])
            sourceTypes)].

(** ** The page *)

Definition API_BASE_URL : string :=
  match location_hostname with
  | Some h => if String.eqb h "localhost" then "http://localhost:8000" else ""
  | None => ""
  end.

Definition loadingMessages : list string :=
  ["INITIALIZING SEARCH PROTOCOL...";
   "BYPASSING KNOWLEDGE BARRIERS...";
   "QUERYING GLOBAL DATA VECTORS...";
   "HARVESTING UNSTRUCTURED EVIDENCE...";
   "DECODING SOURCE CREDIBILITY...";
   "AI MATRIX ANALYSIS IN PROGRESS...";
   "MAPPING DATA RELATIONSHIPS...";
   "FINALIZING EVIDENCE SYNTHESIS..."].

(** [loadingMessages[i]]; the index never leaves the array, the default
    stands for [undefined]. *)
Definition message_at (i : nat) : string := nth i loadingMessages "".

(** *** The rotator effect, [useEffect(..., [isLoading])] *)

(** The cleanup the effect returns: [clearInterval(interval)]. *)
Definition rotator_cleanup (p : Page) : Page := with_interval None p.

(** The effect body. *)
Definition rotator_effect (p : Page) : Page :=
  if isLoading (state p) then
    with_interval (Some (mkInterval 2000 0 0))
      (with_state (setLoadingMessage (message_at 0)) p)
  else p.

(** After a batch of updates React runs cleanup and effect again exactly
    when the dependency [isLoading] differs from its value before.  The
    render that React performs between the updates and the effect is folded
    into this one transition. *)
Definition commit (before : bool) (p : Page) : Page :=
  if Bool.eqb before (isLoading (state p)) then p
  else rotator_effect (rotator_cleanup p).

(** The interval callback. *)
Definition interval_callback (iv : Interval) (p : Page) : Page :=
  let index' := (index iv + 1) mod (List.length loadingMessages) in
  with_interval (Some (mkInterval (delay iv) 0 index'))
    (with_state (setLoadingMessage (message_at index')) p).

(** One millisecond passes. *)
Definition tick (p : Page) : Page :=
  match interval p with
  | None => p
  | Some iv =>
      if S (elapsed iv) =? delay iv then interval_callback iv p
      else with_interval (Some (mkInterval (delay iv) (S (elapsed iv)) (index iv))) p
  end.

Fixpoint elapse (ms : nat) (p : Page) : Page :=
  match ms with
  | O => p
  | S n => elapse n (tick p)
  end.

(** *** The catalog loader, [useEffect(..., [])] *)

Definition catalog_request : Request :=
  mkRequest (API_BASE_URL ++ "/api/source-types") "GET" [] None.

(** The page right after mounting: initial state, the rotator effect run
    once with [isLoading = false], the catalog request issued. *)
Definition mount : Page :=
  issue catalog_request (rotator_effect (mkPage initial_state None [] [])).

(** [.then(res => res.json())]: the status is not looked at.  A parsed
    body is taken with the shape the page declares for it, an object whose
    [source_types] is a list of options; a body that parses to anything
    else has no counterpart here. *)
Definition catalog_body (o : Outcome (list SourceType)) : Thrown + list SourceType :=
  match o with
  | FetchRejected t => inl t
  | Responded _ (JsonRejected t) => inl t
  | Responded _ (JsonParsed data) => inr data
  end.

(** [.then(data => setSourceTypes(data.source_types)).catch(err => console.error(...))] *)
Definition catalog_settled (o : Outcome (list SourceType)) (p : Page) : Page :=
  match catalog_body o with
  | inr source_types => with_state (setSourceTypes source_types) p
  | inl err => console_error "Failed to fetch source types:" err p
  end.

(** *** handleSearch *)

Definition search_body (q : string) (selected : list string) : JSON :=
  JObject
    [("query", JString q);
     ("source_types",
       if 0 <? List.length selected then JArray (map JString selected) else JNull)].

Definition search_request (q : string) (selected : list string) : Request :=
  mkRequest (API_BASE_URL ++ "/api/search") "POST"
    [("Content-Type", "application/json")]
    (Some (search_body q selected)).

(** Up to the [await fetch(...)]; [e.preventDefault()] has no part in the
    state of the page. *)
Definition handleSearch (p : Page) : Page :=
  let st := state p in
  if negb (JS.truthy (JS.trim (query st))) then p
  else
    commit (isLoading st)
      (issue (search_request (JS.trim (query st)) (selectedTypes st))
         (with_state
            (fun s => setHasSearched true (setError None (setIsLoading true s))) p)).

(** The [try] block after the fetch settled: a value or a thrown one.  A
    parsed body is taken with the declared shape of [SearchResponse]. *)
Definition try_block (o : Outcome SearchResponse) : Thrown + SearchResponse :=
  match o with
  | FetchRejected t => inl t
  | Responded false _ => inl (ErrorObject "Search failed. Please try again.")
  | Responded true (JsonRejected t) => inl t
  | Responded true (JsonParsed data) => inr data
  end.

(** [err instanceof Error ? err.message : 'An unexpected error occurred'] *)
Definition catch_message (err : Thrown) : string :=
  match err with
  | ErrorObject message => message
  | NonError => "An unexpected error occurred"
  end.

(** From the settling of the fetch to the end of [finally]. *)
Definition search_settled (o : Outcome SearchResponse) (p : Page) : Page :=
  let before := isLoading (state p) in
  let p1 :=
    match try_block o with
    | inr data => with_state (setResults (Some data)) p
    | inl err =>
        with_state (fun s => setResults None (setError (Some (catch_message err)) s)) p
    end in
  commit before (with_state (setIsLoading false) p1).

(** *** toggleSourceType, handleKeyPress *)

Definition toggle (type : string) (prev : list string) : list string :=
  if JS.arr_includes prev type
  then filter (fun t => negb (String.eqb t type)) prev
  else prev ++ [type].

Definition toggleSourceType (type : string) (p : Page) : Page :=
  with_state (setSelectedTypes (toggle type)) p.

Definition handleKeyPress (key : string) (p : Page) : Page :=
  if String.eqb key "Enter" then handleSearch p else p.

(** *** The markup of the page *)

(** The character written [&quot;] in the markup. *)
Definition quot : string := String (ascii_of_nat 34) EmptyString.

Definition empty_state (icon : Glyph) (heading text : string) : Node :=
  Elem "div" "empty-state" []
    [Elem "div" "empty-icon" [] [Sym icon];
     Elem "h3" "empty-title" [] [Text heading];
     Elem "p" "empty-text" [] [Text text]].

Definition results_section (r : SearchResponse) : Node :=
  Elem "section" "results-section" []
    [Elem "div" "results-header" []
       [Elem "span" "results-count" []
          [Num (Plain (total_results r)); Text " evidence sources found"];
        Elem "span" "query-label" []
          [Text "Query: ";
           Elem "span" "" [] [Text quot; Text (resp_query r); Text quot]]];
     if 0 <? List.length (evidence_cards r) then
       Elem "div" "evidence-grid" []
         (map (fun card => EvidenceCardC (id card) card) (evidence_cards r))
     else
       empty_state MagnifyingGlass "No Evidence Found"
         "Try rephrasing your query or removing filters to see more results."].

Definition Home (st : State) : Node :=
  Elem "main" "main-container" []
    ([ParticlesC;
      Elem "section" "hero" []
        [Elem "h1" "hero-title" [] [Text "EVIDENCE FINDER"];
         Elem "p" "hero-subtitle" []
           [Text "Discover verified evidence for any claim or question. Powered by AI analysis to help you understand the facts."]];
      Elem "section" "search-section" []
        [Elem "form" "" [("onSubmit", AHandler OnSubmit)]
           [Elem "div" "search-container" []
              [Elem "div" "search-input-wrapper" []
                 [Elem "input" "search-input"
                    [("type", AStr "text");
                     ("placeholder", AStr "Enter your claim or question...");
                     ("value", AStr (query st));
                     ("onChange", AHandler OnChange);
                     ("onKeyPress", AHandler OnKeyPress)] [];
                  Elem "button" "search-button"
                    [("type", AStr "submit");
                     ("disabled",
                       ABool (isLoading st || negb (JS.truthy (JS.trim (query st)))))]
                    [Text (if isLoading st then "SEARCHING..." else "FIND EVIDENCE")]]]]]]
     ++ when (0 <? List.length (sourceTypes st))
          (FilterChipsC (sourceTypes st) (selectedTypes st))
     ++ when (isLoading st)
          (Elem "div" "loading-container" []
             [Elem "div" "loading-wrapper" []
                [Elem "div" "loading-spinner-outer" [] [];
                 Elem "div" "loading-spinner-inner" [] [];
                 Elem "div" "loading-scanner" [] []];
              Elem "p" "loading-text" [] [Text (loadingMessage st)]])
     ++ match error st with
        | Some e =>
            when (JS.truthy e)
              (Elem "div" "error-state" []
                 [Elem "h3" "error-title" [] [Text "Search Error"];
                  Elem "p" "error-message" [] [Text e]])
        | None => []
        end
     ++ match results st with
        | Some r => when (negb (isLoading st)) (results_section r)
        | None => []
        end
     ++ when (negb (hasSearched st) && negb (isLoading st))
          (empty_state Microscope "Ready to Explore"
             "Enter a claim or question above to discover supporting evidence.")).

(** All the nodes of a tree, in document order. *)
Fixpoint nodes (n : Node) : list Node :=
  n :: match n with
       | Elem _ _ _ children => flat_map nodes children
       | _ => []
       end.

(** The evidence cards of a tree, in document order. *)
Definition cards_of (n : Node) : list EvidenceCardData :=
  flat_map (fun m => match m with EvidenceCardC _ props => [props] | _ => [] end)
           (nodes n).

(** The nodes of a tree that satisfy a test, in document order. *)
Definition select (f : Node -> bool) (n : Node) : list Node :=
  filter f (nodes n).

Definition is_filter_chips (n : Node) : bool :=
  match n with FilterChipsC _ _ => true | _ => false end.

Definition has_class (c : string) (n : Node) : bool :=
  match n with Elem _ cls _ _ => String.eqb cls c | _ => false end.

(** *** The page as a transition system *)

Inductive Event :=
| Typed (text : string)                        (* onChange of the input *)
| Submitted                                    (* onSubmit of the form *)
| KeyPressed (key : string)                    (* onKeyPress of the input *)
| Toggled (v : string)                         (* a click on a filter chip *)
| SearchSettled (o : Outcome SearchResponse)   (* a search fetch settles *)
| CatalogSettled (o : Outcome (list SourceType))
| Millisecond.

Definition step (p : Page) (e : Event) : Page :=
  match e with
  | Typed text => with_state (setQuery text) p
  | Submitted => handleSearch p
  | KeyPressed key => handleKeyPress key p
  | Toggled v => toggleSourceType v p
  | SearchSettled o => search_settled o p
  | CatalogSettled o => catalog_settled o p
  | Millisecond => tick p
  end.

Definition run (p : Page) (trace : list Event) : Page := fold_left step trace p.

Definition is_millisecond (e : Event) : bool :=
  match e with Millisecond => true | _ => false end.

Definition is_search_settled (e : Event) : bool :=
  match e with SearchSettled _ => true | _ => false end.

(** Milliseconds elapsed along a trace. *)
Definition duration (trace : list Event) : nat :=
  List.length (filter is_millisecond trace).

(** A fetch that did not succeed: it rejected, or the status is not 2xx. *)
Definition non_success {A} (o : Outcome A) : bool :=
  match o with
  | FetchRejected _ => true
  | Responded ok _ => negb ok
  end.



(** The rotator [k] milliseconds into a loading phase: the interval is
    live and the message shown is the one of the current 2000 ms slot. *)
Definition rotating (k : nat) (p : Page) : Prop :=
  isLoading (state p) = true /\
  interval p = Some (mkInterval 2000 (k mod 2000) ((k / 2000) mod 8)) /\
  loadingMessage (state p) = message_at ((k / 2000) mod 8).

(** *** Names for parts of the markup and for the invariants of the page *)

(** One chip of [FilterChips], the body of its [map]. *)
Definition chip (selectedTypes : list string) (type : SourceType) : Node :=
  Elem "button"
    ("filter-chip " ++
       (if JS.arr_includes selectedTypes (value type) then "active" else ""))
    [("key", AStr (value type));
     ("onClick", AHandler (OnToggle (value type)))]
    [Text (label type)].

Definition has_tag (t : string) (n : Node) : bool :=
  match n with Elem tag _ _ _ => String.eqb tag t | _ => false end.

(** The symbol of the "Ready to Explore" panel. *)
Definition is_welcome (n : Node) : bool :=
  match n with Sym Microscope => true | _ => false end.

(** The host as the specification words it: a leading "www." removed. *)
Definition strip_leading_www (host : string) : string :=
  if JS.startsWith host "www." then JS.drop 4 host else host.

(** The event is a submission that passes the guard of [handleSearch]. *)
Definition submits (p : Page) (e : Event) : bool :=
  match e with
  | Submitted => JS.truthy (JS.trim (query (state p)))
  | KeyPressed key =>
      String.eqb key "Enter" && JS.truthy (JS.trim (query (state p)))
  | _ => false
  end.

(** The event is a form submission or an Enter key press. *)
Definition is_submission (e : Event) : bool :=
  match e with
  | Submitted => true
  | KeyPressed key => String.eqb key "Enter"
  | _ => false
  end.

(** The interval is live exactly while the page is loading, with the
    delay of the source, and the message shown is the one at its index. *)
Definition rotator_ok (p : Page) : Prop :=
  match interval p with
  | None => isLoading (state p) = false
  | Some iv =>
      isLoading (state p) = true /\
      delay iv = 2000 /\
      elapsed iv < 2000 /\
      index iv < 8 /\
      loadingMessage (state p) = message_at (index iv)
  end.

(** A request as [handleSearch] sends it: the query is not empty and
    carries no outer whitespace, the filter values are distinct. *)
Definition sent_by_search (r : Request) : Prop :=
  exists q selected,
    r = search_request q selected /\
    q <> "" /\ JS.trim q = q /\ NoDup selected.

(* ================================================================== *)
(** * Part II.  Properties *)
(* ================================================================== *)

(** ** The string primitives *)

Example trim_both_ends : JS.trim "  Is coffee healthy?  " = "Is coffee healthy?".
Proof. reflexivity. Qed.

Example trim_keeps_inner : JS.trim "a  b" = "a  b".
Proof. reflexivity. Qed.

Example toLowerCase_ascii : JS.toLowerCase "Partially CONTRADICTS" = "partially contradicts".
Proof. reflexivity. Qed.

Example includes_inner : JS.includes "this supports the claim" "support" = true.
Proof. reflexivity. Qed.

Example includes_empty_pattern : JS.includes "abc" "" = true.
Proof. reflexivity. Qed.

Example replace_first_only : JS.replace "a_b_c" "_" " " = "a b_c".
Proof. reflexivity. Qed.

Example replace_inner_pattern : JS.replace "awww.b.com" "www." "" = "ab.com".
Proof. reflexivity. Qed.

Lemma JS_startsWith_spec (s p : string) :
  JS.startsWith s p = true <-> exists post, s = p ++ post.
Proof.
  revert s; induction p as [|a p IH]; intros s; simpl.
  - split; [intros _; now exists s | reflexivity].
  - destruct s as [|b s].
    + split; [discriminate | intros [post H]; discriminate].
    + rewrite andb_true_iff, Ascii.eqb_eq, IH. split.
      * intros [-> [post ->]]. now exists post.
      * intros [post H]. injection H as -> ->. split; [reflexivity | now exists post].
Qed.

Lemma JS_startsWith_app (p s : string) : JS.startsWith (p ++ s) p = true.
Proof. apply JS_startsWith_spec. now exists s. Qed.

Lemma JS_includes_spec (s p : string) :
  JS.includes s p = true <-> occurs p s.
Proof.
  unfold occurs. induction s as [|c s IH].
  - simpl. destruct (JS.startsWith "" p) eqn:E.
    + apply JS_startsWith_spec in E as [post E]. split; [|reflexivity].
      intros _. exists "", post. exact E.
    + split; [discriminate|]. intros [pre [post H]].
      destruct pre; [|discriminate]. simpl in H.
      assert (JS.startsWith "" p = true) as E' by (apply JS_startsWith_spec; now exists post).
      congruence.
  - simpl. destruct (JS.startsWith (String c s) p) eqn:E.
    + apply JS_startsWith_spec in E as [post E]. split; [|reflexivity].
      intros _. exists "", post. exact E.
    + rewrite IH. split.
      * intros [pre [post ->]]. now exists (String c pre), post.
      * intros [pre [post H]]. destruct pre as [|c' pre].
        -- simpl in H.
           assert (JS.startsWith (String c s) p = true) as E'
             by (apply JS_startsWith_spec; now exists post).
           congruence.
        -- simpl in H. injection H as _ ->. now exists pre, post.
Qed.

Lemma JS_includes_false (s p : string) :
  JS.includes s p = false <-> ~ occurs p s.
Proof.
  rewrite <- JS_includes_spec. destruct (JS.includes s p); split; intros H.
  - discriminate.
  - exfalso. now apply H.
  - discriminate.
  - reflexivity.
Qed.

Lemma JS_drop_app (p s : string) : JS.drop (String.length p) (p ++ s) = s.
Proof. induction p; simpl; auto. Qed.

(** A pattern at the very start is the occurrence that is replaced. *)
Lemma JS_replace_prefix (pat s rep : string) :
  JS.replace (pat ++ s) pat rep = rep ++ s.
Proof.
  destruct (pat ++ s) eqn:E; simpl; rewrite <- E;
    now rewrite JS_startsWith_app, JS_drop_app.
Qed.

(** Without an occurrence nothing is replaced. *)
Lemma JS_replace_absent (s pat rep : string) :
  JS.includes s pat = false -> JS.replace s pat rep = s.
Proof.
  induction s as [|c s IH]; simpl.
  - destruct (JS.startsWith "" pat); [discriminate | reflexivity].
  - destruct (JS.startsWith (String c s) pat); [discriminate|].
    intros H. now rewrite IH.
Qed.

(** A one-character pattern: the first occurrence is replaced and what
    follows it is kept as it is. *)
Lemma JS_replace_char_first (c : ascii) (pre post rep : string) :
  JS.includes pre (String c "") = false ->
  JS.replace (pre ++ String c post) (String c "") rep = pre ++ rep ++ post.
Proof.
  induction pre as [|a pre IH]; intros H.
  - simpl. now rewrite Ascii.eqb_refl.
  - simpl in H |- *. destruct (Ascii.eqb c a); simpl in *; [discriminate|].
    now rewrite IH.
Qed.

(** In general: the occurrence before which no other one starts is
    replaced, the rest of the string is kept. *)
Lemma JS_replace_first (pre pat post rep : string) :
  (forall pre1 pre2, pre = pre1 ++ pre2 -> pre2 <> "" ->
     JS.startsWith (pre2 ++ pat ++ post) pat = false) ->
  JS.replace (pre ++ pat ++ post) pat rep = pre ++ rep ++ post.
Proof.
  induction pre as [|c pre IH]; intros N.
  - exact (JS_replace_prefix pat post rep).
  - assert (JS.startsWith (String c pre ++ pat ++ post) pat = false) as E
      by (apply (N "" (String c pre)); [reflexivity | discriminate]).
    change (String c pre ++ pat ++ post) with (String c (pre ++ pat ++ post)) in *.
    cbn [JS.replace]. rewrite E. cbn [append]. f_equal. apply IH.
    intros pre1 pre2 -> N2. now apply (N (String c pre1) pre2).
Qed.

Lemma JS_trimEnd_empty (s : string) :
  JS.trimEnd s = "" <->
  (forall c, In c (list_ascii_of_string s) -> JS.is_white_space c = true).
Proof.
  induction s as [|a s IH]; simpl.
  - split; [intros _ c [] | reflexivity].
  - destruct (JS.trimEnd s) eqn:E.
    + destruct (JS.is_white_space a) eqn:W.
      * split; [|reflexivity]. intros _ c [<- | H]; [exact W|].
        now apply IH.
      * split; [discriminate|]. intros H.
        specialize (H a (or_introl eq_refl)). congruence.
    + split; [discriminate|]. intros H.
      assert (String a0 s0 = "") as F by (apply IH; intros c Hc; apply H; now right).
      discriminate.
Qed.

Lemma JS_trimStart_white (s : string) :
  (forall c, In c (list_ascii_of_string s) -> JS.is_white_space c = true) ->
  JS.trimStart s = "".
Proof.
  induction s as [|a s IH]; simpl; intros H; [reflexivity|].
  rewrite (H a) by now left. apply IH. intros c Hc. apply H. now right.
Qed.

(** Exactly the empty and the whitespace-only strings trim to the empty
    string. *)
Lemma JS_trim_empty_iff (s : string) :
  JS.trim s = "" <->
  (forall c, In c (list_ascii_of_string s) -> JS.is_white_space c = true).
Proof.
  unfold JS.trim. split.
  - induction s as [|a s IH]; simpl; intros H c Hc; [destruct Hc|].
    destruct (JS.is_white_space a) eqn:W.
    + destruct Hc as [<- | Hc]; [exact W | now apply IH].
    + simpl in H. destruct (JS.trimEnd s); [|discriminate].
      rewrite W in H. discriminate.
  - intros H. now rewrite JS_trimStart_white.
Qed.

Lemma JS_truthy_false (s : string) : JS.truthy s = false <-> s = "".
Proof. destruct s; simpl; split; congruence. Qed.

(** ** Evidence card: relation icon and badge *)

Lemma getRelationIcon_cases (relation : string) :
  getRelationIcon relation =
    if JS.includes (JS.toLowerCase relation) "support" then CheckMark
    else if JS.includes (JS.toLowerCase relation) "contradict" then CrossMark
    else if JS.includes (JS.toLowerCase relation) "context" then Clipboard
    else if JS.includes (JS.toLowerCase relation) "neutral" then WavyDash
    else LinkSymbol.
Proof. reflexivity. Qed.

Ltac decide_includes :=
  repeat match goal with
    | H : occurs _ _ |- _ => apply JS_includes_spec in H; rewrite H
    | H : ~ occurs _ _ |- _ => apply JS_includes_false in H; rewrite H
    end.

(** In terms of the lower-cased text: the answer is the symbol of the
    first keyword, in the order support, contradict, context, neutral, that
    occurs in it, and the link symbol when none does. *)
Theorem getRelationIcon_first_match (relation : string) :
  (occurs "support" (JS.toLowerCase relation) ->
     getRelationIcon relation = CheckMark) /\
  (~ occurs "support" (JS.toLowerCase relation) ->
   occurs "contradict" (JS.toLowerCase relation) ->
     getRelationIcon relation = CrossMark) /\
  (~ occurs "support" (JS.toLowerCase relation) ->
   ~ occurs "contradict" (JS.toLowerCase relation) ->
   occurs "context" (JS.toLowerCase relation) ->
     getRelationIcon relation = Clipboard) /\
  (~ occurs "support" (JS.toLowerCase relation) ->
   ~ occurs "contradict" (JS.toLowerCase relation) ->
   ~ occurs "context" (JS.toLowerCase relation) ->
   occurs "neutral" (JS.toLowerCase relation) ->
     getRelationIcon relation = WavyDash) /\
  (~ occurs "support" (JS.toLowerCase relation) ->
   ~ occurs "contradict" (JS.toLowerCase relation) ->
   ~ occurs "context" (JS.toLowerCase relation) ->
   ~ occurs "neutral" (JS.toLowerCase relation) ->
     getRelationIcon relation = LinkSymbol).
Proof.
  rewrite getRelationIcon_cases.
  repeat split; intros; decide_includes; reflexivity.
Qed.

Lemma ascii_eq_by_code (a b : ascii) :
  a = b <-> nat_of_ascii a = nat_of_ascii b.
Proof.
  split; [now intros ->|]. intros H.
  rewrite <- (ascii_nat_embedding a), <- (ascii_nat_embedding b). now rewrite H.
Qed.

(** Lower-casing a code unit gives a lower-case ASCII letter exactly for
    that letter and for its capital. *)
Lemma lower_char_same_letter (c k : ascii) :
  is_lower_alpha k = true ->
  Ascii.eqb k (JS.lower_char c) = same_letter c k.
Proof.
  unfold is_lower_alpha, same_letter, JS.lower_char. cbv zeta. intros K.
  apply andb_true_iff in K as [K1 K2]. apply Nat.leb_le in K1, K2.
  pose proof (nat_ascii_bounded c) as B.
  apply eq_true_iff_eq. rewrite orb_true_iff, !Ascii.eqb_eq, Nat.eqb_eq.
  rewrite (ascii_eq_by_code c k).
  destruct (((65 <=? nat_of_ascii c) && (nat_of_ascii c <=? 90))
            || ((192 <=? nat_of_ascii c) && (nat_of_ascii c <=? 222)
                && negb (nat_of_ascii c =? 215))) eqn:C.
  - rewrite (ascii_eq_by_code k), nat_ascii_embedding.
    + apply orb_true_iff in C as [C | C].
      * apply andb_true_iff in C as [C1 C2]. apply Nat.leb_le in C1, C2. lia.
      * apply andb_true_iff in C as [C _]. apply andb_true_iff in C as [C1 C2].
        apply Nat.leb_le in C1, C2. lia.
    + apply orb_true_iff in C as [C | C].
      * apply andb_true_iff in C as [_ C2]. apply Nat.leb_le in C2. lia.
      * apply andb_true_iff in C as [C _]. apply andb_true_iff in C as [_ C2].
        apply Nat.leb_le in C2. lia.
  - rewrite (ascii_eq_by_code k c).
    apply orb_false_iff in C as [C _].
    apply andb_false_iff in C. split; [intros H; left; lia|].
    intros [H | H]; [lia|]. exfalso.
    destruct C as [C | C]; [apply Nat.leb_gt in C | apply Nat.leb_gt in C]; lia.
Qed.

Lemma startsWith_lowered (text keyword : string) :
  lowercase_word keyword = true ->
  JS.startsWith (JS.toLowerCase text) keyword = spelled_at_start text keyword.
Proof.
  unfold lowercase_word. revert text.
  induction keyword as [|k kw IH]; intros text L; [reflexivity|].
  cbn [list_ascii_of_string forallb] in L. apply andb_true_iff in L as [K L].
  destruct text as [|c t]; [reflexivity|].
  cbn [JS.toLowerCase JS.startsWith spelled_at_start].
  now rewrite (lower_char_same_letter c k K), IH.
Qed.

(** For a lower-case keyword, looking for it in the lower-cased text is
    looking for it in the text in any mix of cases. *)
Lemma includes_lowered (text keyword : string) :
  lowercase_word keyword = true ->
  JS.includes (JS.toLowerCase text) keyword = mentions text keyword.
Proof.
  intros L. induction text as [|c t IH].
  - pose proof (startsWith_lowered "" keyword L) as S.
    cbn [JS.toLowerCase] in S. cbn [JS.toLowerCase JS.includes mentions].
    now rewrite S.
  - pose proof (startsWith_lowered (String c t) keyword L) as S.
    cbn [JS.toLowerCase] in S. cbn [JS.toLowerCase JS.includes mentions].
    now rewrite S, IH.
Qed.

(** C6.  [getRelationIcon] looks for the keywords without regard to case,
    which it does by lower-casing the text, and answers with the symbol of
    the first keyword found in the order support, contradict, context,
    neutral: the check mark when "support" stands in the text in any mix
    of cases, whatever else the text holds; otherwise the cross for
    "contradict"; otherwise the clipboard for "context"; otherwise the wave
    for "neutral"; and the link symbol when none of the four stands in the
    text. *)
Theorem getRelationIcon_priority (relation : string) :
  (mentions relation "support" = true ->
     getRelationIcon relation = CheckMark) /\
  (mentions relation "support" = false ->
   mentions relation "contradict" = true ->
     getRelationIcon relation = CrossMark) /\
  (mentions relation "support" = false ->
   mentions relation "contradict" = false ->
   mentions relation "context" = true ->
     getRelationIcon relation = Clipboard) /\
  (mentions relation "support" = false ->
   mentions relation "contradict" = false ->
   mentions relation "context" = false ->
   mentions relation "neutral" = true ->
     getRelationIcon relation = WavyDash) /\
  (mentions relation "support" = false ->
   mentions relation "contradict" = false ->
   mentions relation "context" = false ->
   mentions relation "neutral" = false ->
     getRelationIcon relation = LinkSymbol).
Proof.
  rewrite getRelationIcon_cases.
  rewrite !includes_lowered by reflexivity.
  repeat split; intros;
    repeat match goal with H : mentions _ _ = _ |- _ => rewrite H; clear H end;
    reflexivity.
Qed.

Example mentions_capitals : mentions "SUPPORTS the claim" "support" = true.
Proof. reflexivity. Qed.

Example mentions_inside_word : mentions "Unsupported" "support" = true.
Proof. reflexivity. Qed.

Example mentions_needs_adjacent_letters : mentions "Sup port" "support" = false.
Proof. reflexivity. Qed.

Example getRelationIcon_capitals :
  getRelationIcon "SUPPORTS the claim" = CheckMark.
Proof. reflexivity. Qed.

Example getRelationIcon_supports :
  getRelationIcon "This supports the claim" = CheckMark.
Proof. reflexivity. Qed.

Example getRelationIcon_contradicts :
  getRelationIcon "Partially contradicts" = CrossMark.
Proof. reflexivity. Qed.

Example getRelationIcon_both :
  getRelationIcon "Contradicts one study, SUPPORTS another" = CheckMark.
Proof. reflexivity. Qed.

Example getRelationIcon_other :
  getRelationIcon "unrelated" = LinkSymbol.
Proof. reflexivity. Qed.

(** Every string either holds no underscore or splits at its first one. *)
Lemma first_underscore (s : string) :
  ~ occurs "_" s \/
  exists pre post, s = pre ++ "_" ++ post /\ ~ occurs "_" pre.
Proof.
  induction s as [|c s IH].
  - left. intros [pre [post H]]. destruct pre; discriminate.
  - destruct (Ascii.eqb c "_") eqn:E.
    + apply Ascii.eqb_eq in E as ->. right. exists "", s. split; [reflexivity|].
      intros [pre [post H]]. destruct pre; discriminate.
    + destruct IH as [IH | [pre [post [-> IH]]]].
      * left. intros [pre [post H]]. destruct pre as [|a pre]; simpl in H.
        -- injection H as -> _. now rewrite Ascii.eqb_refl in E.
        -- injection H as _ ->. apply IH. now exists pre, post.
      * right. exists (String c pre), post. split; [reflexivity|].
        intros [pre' [post' H]]. destruct pre' as [|a pre']; simpl in H.
        -- injection H as -> _. now rewrite Ascii.eqb_refl in E.
        -- injection H as _ ->. apply IH. now exists pre', post'.
Qed.

Lemma badge_text_first (pre post : string) :
  ~ occurs "_" pre -> badge_text (pre ++ "_" ++ post) = pre ++ " " ++ post.
Proof.
  intros H. apply JS_includes_false in H. unfold badge_text.
  exact (JS_replace_char_first "_" pre post " " H).
Qed.

Lemma badge_text_none (s : string) : ~ occurs "_" s -> badge_text s = s.
Proof. intros H. apply JS_replace_absent. now apply JS_includes_false. Qed.

(** C10.  The badge of a card shows [source_type] with its first underscore
    turned into a space and everything after that underscore, further
    underscores included, unchanged; a [source_type] without underscore is
    shown as it is. *)
Theorem badge_replaces_first_underscore_only (card : EvidenceCardData) :
  In (Elem "span" ("source-badge " ++ source_type card) []
        [Text (badge_text (source_type card))])
     (nodes (EvidenceCard card)) /\
  ((~ occurs "_" (source_type card) /\
    badge_text (source_type card) = source_type card) \/
   (exists pre post,
      source_type card = pre ++ "_" ++ post /\
      ~ occurs "_" pre /\
      badge_text (source_type card) = pre ++ " " ++ post)).
Proof.
  split.
  - simpl. auto.
  - destruct (first_underscore (source_type card)) as [H | [pre [post [E H]]]].
    + left. split; [exact H | now apply badge_text_none].
    + right. exists pre, post. repeat split; trivial.
      rewrite E. now apply badge_text_first.
Qed.

Example badge_text_two_underscores :
  badge_text "peer_reviewed_journal" = "peer reviewed_journal".
Proof. reflexivity. Qed.

(** ** Filter selection *)

Lemma arr_includes_In (l : list string) (x : string) :
  JS.arr_includes l x = true <-> In x l.
Proof.
  unfold JS.arr_includes. rewrite existsb_exists. split.
  - intros [y [Hy E]]. apply String.eqb_eq in E. now subst.
  - intros H. exists x. split; [exact H | apply String.eqb_refl].
Qed.

(** A value is selected after a toggle exactly when it was selected and is
    not the toggled one, or is the toggled one and was not selected. *)
Lemma toggle_In (v : string) (l : list string) (x : string) :
  In x (toggle v l) <-> (In x l /\ x <> v) \/ (x = v /\ ~ In v l).
Proof.
  unfold toggle. destruct (JS.arr_includes l v) eqn:E.
  - apply arr_includes_In in E. rewrite filter_In, negb_true_iff, String.eqb_neq.
    split.
    + intros [H1 H2]. left. now split.
    + intros [H | [-> H]]; [exact H | contradiction].
  - assert (~ In v l) as N by (rewrite <- arr_includes_In, E; discriminate).
    rewrite in_app_iff. cbn [In]. split.
    + intros [H | [<- | []]].
      * left. split; [exact H | intros ->; contradiction].
      * right. now split.
    + intros [[H _] | [-> _]]; [now left | right; now left].
Qed.

Lemma toggle_toggle_In (v : string) (l : list string) (x : string) :
  In x (toggle v (toggle v l)) <-> In x l.
Proof.
  rewrite !toggle_In.
  destruct (in_dec string_dec v l) as [V | V], (string_dec x v) as [-> | N].
  - split; [intros _; exact V|]. intros _. right. split; [reflexivity|].
    intros [[_ F] | [_ F]]; [now apply F | contradiction].
  - split.
    + intros [[[[H _] | [F _]] _] | [F _]]; [exact H | contradiction..].
    + intros H. left. split; [left; now split | exact N].
  - split; [|intros H; contradiction].
    intros [[_ F] | [_ F]]; [now elim F|].
    elim F. right. now split.
  - split.
    + intros [[[[H _] | [F _]] _] | [F _]]; [exact H | contradiction..].
    + intros H. left. split; [left; now split | exact N].
Qed.

(** C9.  Toggling a value twice gives back the selection as a set: every
    value is selected afterwards exactly when it was before.  One toggle
    removes a selected value, adds an unselected one, and leaves the
    membership of every other value alone. *)
Theorem toggle_twice_same_members (v : string) (p : Page) :
  (forall x,
     In x (selectedTypes (state (toggleSourceType v (toggleSourceType v p)))) <->
     In x (selectedTypes (state p))) /\
  (In v (selectedTypes (state p)) ->
     ~ In v (selectedTypes (state (toggleSourceType v p)))) /\
  (~ In v (selectedTypes (state p)) ->
     In v (selectedTypes (state (toggleSourceType v p)))) /\
  (forall x, x <> v ->
     (In x (selectedTypes (state (toggleSourceType v p))) <->
      In x (selectedTypes (state p)))).
Proof.
  cbn [state toggleSourceType with_state setSelectedTypes selectedTypes].
  split; [|split; [|split]].
  - intros x. apply toggle_toggle_In.
  - intros H. rewrite toggle_In. intros [[_ F] | [_ F]]; [now apply F | contradiction].
  - intros H. rewrite toggle_In. right. now split.
  - intros x N. rewrite toggle_In. split.
    + intros [[H _] | [F _]]; [exact H | contradiction].
    + intros H. left. now split.
Qed.

(** ** The search session *)

Lemma commit_same (p : Page) : commit (isLoading (state p)) p = p.
Proof. unfold commit. now rewrite Bool.eqb_reflx. Qed.

Lemma commit_state_idle (before : bool) (p : Page) :
  isLoading (state p) = false -> state (commit before p) = state p.
Proof.
  intros H. unfold commit, rotator_effect, rotator_cleanup.
  destruct (Bool.eqb before (isLoading (state p))); [reflexivity|].
  simpl. now rewrite H.
Qed.

Lemma commit_fetches (before : bool) (p : Page) :
  fetches (commit before p) = fetches p.
Proof.
  unfold commit, rotator_effect, rotator_cleanup.
  destruct (Bool.eqb before (isLoading (state p))); [reflexivity|].
  simpl. now destruct (isLoading (state p)).
Qed.

Lemma handleSearch_blank (p : Page) :
  JS.trim (query (state p)) = "" -> handleSearch p = p.
Proof. intros H. unfold handleSearch. now rewrite H. Qed.

Lemma handleSearch_fetches (p : Page) :
  JS.trim (query (state p)) <> "" ->
  fetches (handleSearch p) =
  (fetches p ++ [search_request (JS.trim (query (state p))) (selectedTypes (state p))])%list.
Proof.
  intros H. unfold handleSearch.
  destruct (JS.truthy (JS.trim (query (state p)))) eqn:E.
  - simpl. now rewrite commit_fetches.
  - apply JS_truthy_false in E. contradiction.
Qed.

Lemma search_settled_fetches (o : Outcome SearchResponse) (p : Page) :
  fetches (search_settled o p) = fetches p.
Proof.
  unfold search_settled. rewrite commit_fetches.
  now destruct (try_block o).
Qed.

(** C2.  With a query that trims to the empty string [handleSearch]
    returns at once: the page is left exactly as it was, so no request is
    issued and loading, error, results and hasSearched keep their values.
    This holds for the form submission and for the Enter key alike. *)
Theorem handleSearch_blank_query_noop (p : Page) :
  JS.trim (query (state p)) = "" ->
  handleSearch p = p /\
  step p Submitted = p /\
  step p (KeyPressed "Enter") = p /\
  fetches (handleSearch p) = fetches p /\
  isLoading (state (handleSearch p)) = isLoading (state p) /\
  error (state (handleSearch p)) = error (state p) /\
  results (state (handleSearch p)) = results (state p) /\
  hasSearched (state (handleSearch p)) = hasSearched (state p).
Proof.
  intros H. pose proof (handleSearch_blank p H) as E.
  unfold step, handleKeyPress. simpl. rewrite E. repeat split; reflexivity.
Qed.

(** C3.  With a query that does not trim to the empty string
    [handleSearch] issues one request, a POST to /api/search whose body
    holds the trimmed query and, as source_types, the selected values when
    there are some and null when there are none; settling the request
    issues no further one. *)
Theorem handleSearch_one_request (p : Page) :
  JS.trim (query (state p)) <> "" ->
  fetches (handleSearch p) =
    (fetches p ++
     [mkRequest (API_BASE_URL ++ "/api/search") "POST"
        [("Content-Type", "application/json")]
        (Some (JObject
           [("query", JString (JS.trim (query (state p))));
            ("source_types",
              match selectedTypes (state p) with
              | [] => JNull
              | _ :: _ => JArray (map JString (selectedTypes (state p)))
              end)]))])%list /\
  (forall o, fetches (search_settled o (handleSearch p)) = fetches (handleSearch p)).
Proof.
  intros H. split.
  - rewrite (handleSearch_fetches p H). unfold search_request, search_body.
    now destruct (selectedTypes (state p)).
  - intros o. apply search_settled_fetches.
Qed.

Lemma search_settled_state (o : Outcome SearchResponse) (p : Page) :
  state (search_settled o p) =
  setIsLoading false
    match try_block o with
    | inr data => setResults (Some data) (state p)
    | inl err => setResults None (setError (Some (catch_message err)) (state p))
    end.
Proof.
  unfold search_settled. rewrite commit_state_idle; now destruct (try_block o).
Qed.

(** The [catch] clause in full, also for a thrown value that is not an
    error, which [fetch] does not produce: the message is "Search failed.
    Please try again." for a response whose status is not 2xx, the message
    of the error when the fetch rejected with an error, and "An unexpected
    error occurred" when it rejected with another value. *)
Theorem search_failure_sets_error (o : Outcome SearchResponse) (p : Page) :
  non_success o = true ->
  error (state (search_settled o p)) =
    Some match o with
         | Responded _ _ => "Search failed. Please try again."
         | FetchRejected (ErrorObject message) => message
         | FetchRejected NonError => "An unexpected error occurred"
         end /\
  results (state (search_settled o p)) = None /\
  isLoading (state (search_settled o p)) = false.
Proof.
  intros H. rewrite search_settled_state.
  destruct o as [[m|] | [|] b]; simpl in *; try discriminate; auto.
Qed.


(** ** What the page shows *)

Lemma cards_of_Elem tag cls attrs children :
  cards_of (Elem tag cls attrs children) = flat_map cards_of children.
Proof.
  unfold cards_of. simpl. induction children as [|n l IH]; simpl; [reflexivity|].
  now rewrite flat_map_app, IH.
Qed.

Lemma cards_of_grid (l : list EvidenceCardData) :
  flat_map cards_of (map (fun card => EvidenceCardC (id card) card) l) = l.
Proof. induction l as [|c l IH]; simpl; [reflexivity | now rewrite IH]. Qed.

Lemma cards_of_results_section (r : SearchResponse) :
  cards_of (results_section r) = evidence_cards r.
Proof.
  unfold results_section. rewrite cards_of_Elem.
  destruct (evidence_cards r) as [|c l] eqn:E; [reflexivity|].
  cbn [List.length Nat.ltb Nat.leb flat_map].
  rewrite (cards_of_Elem "div" "evidence-grid"), cards_of_grid.
  now rewrite app_nil_r.
Qed.

Lemma cards_of_Home_results (st : State) (r : SearchResponse) :
  results st = Some r -> isLoading st = false ->
  cards_of (Home st) = evidence_cards r.
Proof.
  intros R L. unfold Home. rewrite cards_of_Elem, R, L.
  rewrite !flat_map_app. cbn [negb when].
  replace (flat_map cards_of [results_section r]) with (evidence_cards r)
    by (cbn [flat_map]; now rewrite cards_of_results_section, app_nil_r).
  destruct (0 <? List.length (sourceTypes st)), (error st) as [e|],
    (hasSearched st); try destruct (JS.truthy e);
    cbn; now rewrite ?app_nil_r.
Qed.

(** C7.  After a successful response the page shows one evidence card per
    element of [evidence_cards], in the order of the response; the number
    shown does not depend on [total_results], whatever value it has. *)
Theorem results_show_every_card (data : SearchResponse) (p : Page) :
  cards_of (Home (state (search_settled (Responded true (JsonParsed data)) p)))
    = evidence_cards data /\
  List.length
    (cards_of (Home (state (search_settled (Responded true (JsonParsed data)) p))))
    = List.length (evidence_cards data) /\
  (forall n,
     cards_of (Home (state (search_settled
        (Responded true
           (JsonParsed (mkResponse (resp_query data) (evidence_cards data) n))) p)))
     = evidence_cards data).
Proof.
  assert (forall d, cards_of (Home (state (search_settled
            (Responded true (JsonParsed d)) p))) = evidence_cards d) as K.
  { intros d. apply cards_of_Home_results; rewrite search_settled_state; reflexivity. }
  split; [apply K | split; [now rewrite K | intros n; now rewrite K]].
Qed.

Lemma select_Elem f tag cls attrs children :
  select f (Elem tag cls attrs children) =
  ((if f (Elem tag cls attrs children) then [Elem tag cls attrs children] else [])
   ++ flat_map (select f) children)%list.
Proof.
  unfold select. cbn [nodes filter].
  assert (filter f (flat_map nodes children) = flat_map (select f) children) as ->.
  { induction children as [|n l IH]; [reflexivity|].
    cbn [flat_map]. now rewrite filter_app, IH. }
  now destruct (f (Elem tag cls attrs children)).
Qed.

Lemma select_grid f (l : list EvidenceCardData) :
  (forall k c, f (EvidenceCardC k c) = false) ->
  flat_map (select f) (map (fun card => EvidenceCardC (id card) card) l) = [].
Proof.
  intros H. induction l as [|c l IH]; [reflexivity|].
  cbn [map flat_map]. rewrite IH. unfold select. cbn [nodes filter].
  now rewrite H.
Qed.

Ltac select_in_results :=
  unfold results_section; rewrite select_Elem;
  match goal with
  | |- context [evidence_cards ?r] =>
      destruct (evidence_cards r) as [|? ?]; [reflexivity|]
  end;
  cbn [List.length Nat.ltb Nat.leb flat_map];
  rewrite (select_Elem _ "div" "evidence-grid"), select_grid by reflexivity;
  reflexivity.

Lemma no_chips_in_results (r : SearchResponse) :
  select is_filter_chips (results_section r) = [].
Proof. select_in_results. Qed.

Lemma no_banner_in_results (r : SearchResponse) :
  select (has_class "error-state") (results_section r) = [].
Proof. select_in_results. Qed.

Ltac select_in_home lemma :=
  unfold Home; rewrite select_Elem, !flat_map_app;
  repeat match goal with
    | H : _ = _ |- _ => rewrite H
    end;
  match goal with
  | |- context [results ?st] =>
      destruct (results st) as [?|], (isLoading st), (hasSearched st)
  end;
  cbn [when negb andb flat_map List.length Nat.ltb Nat.leb];
  rewrite ?lemma; reflexivity.

(** The filter section is left out whenever the catalog is empty. *)
Lemma Home_no_chips_when_catalog_empty (st : State) :
  sourceTypes st = [] -> select is_filter_chips (Home st) = [].
Proof.
  intros H. destruct (error st) as [e|] eqn:E; [destruct (JS.truthy e) eqn:T|].
  - unfold Home; rewrite select_Elem, !flat_map_app, H, E, T.
    destruct (results st) as [?|], (isLoading st), (hasSearched st);
      cbn [when negb andb flat_map List.length Nat.ltb Nat.leb];
      rewrite ?no_chips_in_results; reflexivity.
  - select_in_home no_chips_in_results.
  - select_in_home no_chips_in_results.
Qed.

(** Without an error in the state there is no error banner. *)
Lemma Home_no_banner_without_error (st : State) :
  error st = None -> select (has_class "error-state") (Home st) = [].
Proof.
  intros E. unfold Home. rewrite select_Elem, !flat_map_app, E.
  destruct (0 <? List.length (sourceTypes st)), (results st) as [?|],
    (isLoading st), (hasSearched st);
    cbn [when negb andb flat_map List.length Nat.ltb Nat.leb];
    rewrite ?no_banner_in_results; reflexivity.
Qed.

(** ** The catalog loader *)

(** The failures that reach the [catch] of the loader, a fetch that
    rejects or a body that is not JSON: the state of the page, and with it
    everything shown, stays as it was; the catalog keeps its contents,
    empty after mounting; the failure goes to console.error only; no error
    banner appears.  A page with an empty catalog shows no filter section,
    and a search from it sends source_types null. *)
Theorem catalog_failure_is_silent
    (o : Outcome (list SourceType)) (t : Thrown) (p : Page) :
  catalog_body o = inl t ->
  sourceTypes (state (catalog_settled o p)) = sourceTypes (state p) /\
  sourceTypes (state (catalog_settled o mount)) = [] /\
  console_errors (catalog_settled o p) =
    (console_errors p ++ [("Failed to fetch source types:", t)])%list /\
  Home (state (catalog_settled o p)) = Home (state p) /\
  error (state (catalog_settled o p)) = error (state p) /\
  select (has_class "error-state") (Home (state (catalog_settled o mount))) = [] /\
  (forall st, sourceTypes st = [] -> select is_filter_chips (Home st) = []) /\
  select is_filter_chips (Home (state (catalog_settled o mount))) = [] /\
  (forall text, JS.trim text <> "" ->
     fetches (handleSearch (with_state (setQuery text) (catalog_settled o mount))) =
     [catalog_request;
      mkRequest (API_BASE_URL ++ "/api/search") "POST"
        [("Content-Type", "application/json")]
        (Some (JObject [("query", JString (JS.trim text));
                        ("source_types", JNull)]))]).
Proof.
  intros H.
  assert (forall q, state (catalog_settled o q) = state q) as S
    by (intros q; unfold catalog_settled; now rewrite H).
  assert (forall q, fetches (catalog_settled o q) = fetches q) as F
    by (intros q; unfold catalog_settled; now rewrite H).
  rewrite !S. repeat match goal with |- _ /\ _ => split end; try reflexivity.
  - unfold catalog_settled. now rewrite H.
  - exact Home_no_chips_when_catalog_empty.
  - intros text N. rewrite handleSearch_fetches by exact N.
    cbn [state with_state query setQuery fetches selectedTypes].
    now rewrite S, F.
Qed.

(** ** The status rotator *)

Lemma slot_advances (k : nat) :
  S (k mod 2000) = 2000 ->
  (k + 1) mod 2000 = 0 /\
  ((k / 2000) mod 8 + 1) mod 8 = ((k + 1) / 2000) mod 8.
Proof.
  intros H.
  pose proof (Nat.div_mod_eq k 2000). pose proof (Nat.mod_upper_bound k 2000).
  pose proof (Nat.div_mod_eq (k + 1) 2000).
  pose proof (Nat.mod_upper_bound (k + 1) 2000).
  assert ((k + 1) / 2000 = k / 2000 + 1) as -> by lia.
  split; [lia|]. apply Nat.Div0.add_mod_idemp_l.
Qed.

Lemma slot_stays (k : nat) :
  S (k mod 2000) <> 2000 ->
  (k + 1) mod 2000 = S (k mod 2000) /\ (k + 1) / 2000 = k / 2000.
Proof.
  intros H.
  pose proof (Nat.div_mod_eq k 2000). pose proof (Nat.mod_upper_bound k 2000).
  pose proof (Nat.div_mod_eq (k + 1) 2000).
  pose proof (Nat.mod_upper_bound (k + 1) 2000).
  lia.
Qed.

(** Entering the loading phase starts the rotation at the first message. *)
Lemma rotating_enter (p : Page) :
  isLoading (state p) = false ->
  JS.trim (query (state p)) <> "" ->
  rotating 0 (handleSearch p).
Proof.
  intros L Q. unfold handleSearch.
  destruct (JS.truthy (JS.trim (query (state p)))) eqn:E;
    [|apply JS_truthy_false in E; contradiction].
  rewrite L. unfold rotating; repeat split.
Qed.

Lemma rotating_tick (k : nat) (p : Page) :
  rotating k p -> rotating (k + 1) (tick p).
Proof.
  intros (L & I & M). unfold rotating, tick. rewrite I. cbn [elapsed delay index].
  destruct (Nat.eqb_spec (S (k mod 2000)) 2000) as [E | E].
  - destruct (slot_advances k E) as [E1 E2].
    unfold interval_callback. cbn [index delay].
    change (List.length loadingMessages) with 8.
    rewrite E1, E2. repeat split. exact L.
  - destruct (slot_stays k E) as [E1 E2].
    rewrite E1, E2. repeat split; assumption.
Qed.

Lemma rotating_handleSearch (k : nat) (p : Page) :
  rotating k p -> rotating k (handleSearch p).
Proof.
  intros (L & I & M). unfold handleSearch.
  destruct (negb (JS.truthy (JS.trim (query (state p))))); [now repeat split|].
  rewrite L. unfold commit. cbn [state with_state issue isLoading setHasSearched
    setError setIsLoading Bool.eqb]. now repeat split.
Qed.

(** While no search request settles the rotation goes on, whatever else
    happens on the page. *)
Lemma rotating_step (k : nat) (p : Page) (e : Event) :
  rotating k p -> is_search_settled e = false ->
  rotating (k + (if is_millisecond e then 1 else 0)) (step p e).
Proof.
  intros R N. destruct e as [text| |key|v|o|o|]; cbn [step is_millisecond];
    rewrite ?Nat.add_0_r; try discriminate.
  - destruct R as (L & I & M). now repeat split.
  - now apply rotating_handleSearch.
  - unfold handleKeyPress. destruct (String.eqb key "Enter");
      [now apply rotating_handleSearch | exact R].
  - destruct R as (L & I & M). now repeat split.
  - destruct R as (L & I & M). unfold catalog_settled.
    destruct (catalog_body o); now repeat split.
  - now apply rotating_tick.
Qed.

Lemma rotating_run (trace : list Event) (k : nat) (p : Page) :
  rotating k p -> existsb is_search_settled trace = false ->
  rotating (k + duration trace) (run p trace).
Proof.
  revert k p. induction trace as [|e trace IH]; intros k p R N.
  - unfold duration. cbn. now rewrite Nat.add_0_r.
  - cbn [existsb] in N. apply orb_false_iff in N as [N1 N2].
    unfold run. cbn [fold_left]. fold (run (step p e) trace).
    pose proof (IH _ _ (rotating_step k p e R N1) N2) as R'.
    replace (k + duration (e :: trace))
      with (k + (if is_millisecond e then 1 else 0) + duration trace); [exact R'|].
    unfold duration. cbn [filter]. destruct (is_millisecond e); cbn [List.length]; lia.
Qed.

(** Leaving the loading phase clears the interval. *)
Lemma search_settled_clears (o : Outcome SearchResponse) (p : Page) :
  isLoading (state p) = true -> interval (search_settled o p) = None.
Proof.
  intros L. unfold search_settled. rewrite L. unfold commit.
  destruct (try_block o); reflexivity.
Qed.

Lemma elapse_without_interval (ms : nat) (p : Page) :
  interval p = None -> elapse ms p = p.
Proof.
  intros H. induction ms as [|n IH]; [reflexivity|].
  cbn [elapse]. unfold tick. now rewrite H.
Qed.

(** C5.  There are eight messages.  A search started from a page that is
    not loading shows the first one at once.  From then on, as long as no
    search request settles, the page is loading and after [d] milliseconds
    shows message number [(d / 2000) mod 8], whatever else happens
    meanwhile.  When a request settles the interval is cleared and the
    message no longer moves; the next search starts at the first message
    again. *)
Theorem rotator_cycles_while_loading (p : Page) (trace : list Event) :
  isLoading (state p) = false ->
  JS.trim (query (state p)) <> "" ->
  existsb is_search_settled trace = false ->
  List.length loadingMessages = 8 /\
  loadingMessage (state (handleSearch p)) = nth 0 loadingMessages "" /\
  isLoading (state (run (handleSearch p) trace)) = true /\
  loadingMessage (state (run (handleSearch p) trace)) =
    nth ((duration trace / 2000) mod 8) loadingMessages "" /\
  (exists i, interval (run (handleSearch p) trace) =
               Some (mkInterval 2000 (duration trace mod 2000) i)) /\
  (forall o,
     isLoading (state (search_settled o (run (handleSearch p) trace))) = false /\
     interval (search_settled o (run (handleSearch p) trace)) = None /\
     (forall ms,
        elapse ms (search_settled o (run (handleSearch p) trace)) =
        search_settled o (run (handleSearch p) trace)) /\
     (JS.trim (query (state (search_settled o (run (handleSearch p) trace)))) <> "" ->
      loadingMessage
        (state (handleSearch (search_settled o (run (handleSearch p) trace)))) =
      nth 0 loadingMessages "")).
Proof.
  intros L Q N.
  pose proof (rotating_enter p L Q) as R0.
  pose proof (rotating_run trace 0 _ R0 N) as R. cbn [Nat.add] in R.
  destruct R0 as (_ & _ & M0). destruct R as (L1 & I1 & M1).
  repeat match goal with |- _ /\ _ => split end; trivial.
  - eexists. exact I1.
  - intros o.
    assert (isLoading (state (search_settled o (run (handleSearch p) trace))) = false)
      as L2 by (rewrite search_settled_state; reflexivity).
    repeat match goal with |- _ /\ _ => split end.
    + exact L2.
    + now apply search_settled_clears.
    + intros ms. apply elapse_without_interval. now apply search_settled_clears.
    + intros Q2. now destruct (rotating_enter _ L2 Q2) as (_ & _ & M2).
Qed.

(** ** Evidence card: the domain of the link *)

Lemma getDomain_unparseable (u : string) :
  URL_hostname u = None -> getDomain u = "source".
Proof. intros H. unfold getDomain. now rewrite H. Qed.

Lemma getDomain_leading_www (u host : string) :
  URL_hostname u = Some ("www." ++ host) -> getDomain u = host.
Proof.
  intros H. unfold getDomain. rewrite H.
  exact (JS_replace_prefix "www." host "").
Qed.

Lemma getDomain_without_www (u host : string) :
  URL_hostname u = Some host -> ~ occurs "www." host -> getDomain u = host.
Proof.
  intros H N. unfold getDomain. rewrite H.
  apply JS_replace_absent. now apply JS_includes_false.
Qed.

(** What [getDomain] does in general: the first occurrence of "www." in
    the host name is removed, wherever it stands. *)
Lemma getDomain_first_www (u pre post : string) :
  URL_hostname u = Some (pre ++ "www." ++ post) ->
  (forall pre1 pre2, pre = pre1 ++ pre2 -> pre2 <> "" ->
     JS.startsWith (pre2 ++ "www." ++ post) "www." = false) ->
  getDomain u = pre ++ post.
Proof.
  intros H N. unfold getDomain. rewrite H.
  exact (JS_replace_first pre "www." post "" N).
Qed.

(* ================================================================== *)
(** * Part III.  Further properties *)
(* ================================================================== *)

(** ** Views of the page *)

Ltac results_view :=
  unfold results_section; rewrite select_Elem;
  match goal with
  | |- context [evidence_cards ?r] =>
      destruct (evidence_cards r) as [|? ?]; [reflexivity|]
  end;
  cbn [List.length Nat.ltb Nat.leb flat_map];
  rewrite (select_Elem _ "div" "evidence-grid"), select_grid by reflexivity;
  reflexivity.

Lemma flat_map_when {B} (g : Node -> list B) (b : bool) (n : Node) :
  flat_map g (when b n) = if b then g n else [].
Proof. destruct b; cbn; now rewrite ?app_nil_r. Qed.

Ltac split_flags :=
  repeat match goal with
    | |- context [if ?b then _ else _] => destruct b
    end.

Ltac home_view lemma :=
  unfold Home; rewrite select_Elem, !flat_map_app, !flat_map_when;
  match goal with
  | |- context [error ?st] =>
      destruct (error st) as [e|], (results st) as [r|];
      rewrite ?flat_map_when, ?lemma; cbn; split_flags; reflexivity
  end.

Lemma no_message_in_results (r : SearchResponse) :
  select (has_class "error-message") (results_section r) = [].
Proof. results_view. Qed.

Lemma no_loading_in_results (r : SearchResponse) :
  select (has_class "loading-text") (results_section r) = [].
Proof. results_view. Qed.

Lemma no_welcome_in_results (r : SearchResponse) :
  select is_welcome (results_section r) = [].
Proof. results_view. Qed.

Lemma count_in_results (r : SearchResponse) :
  select (has_class "results-count") (results_section r) =
  [Elem "span" "results-count" []
     [Num (Plain (total_results r)); Text " evidence sources found"]].
Proof. results_view. Qed.

Lemma view_banner (st : State) :
  select (has_class "error-message") (Home st) =
  match error st with
  | Some e => when (JS.truthy e) (Elem "p" "error-message" [] [Text e])
  | None => []
  end.
Proof. home_view no_message_in_results. Qed.

Lemma view_loading (st : State) :
  select (has_class "loading-text") (Home st) =
  when (isLoading st) (Elem "p" "loading-text" [] [Text (loadingMessage st)]).
Proof. home_view no_loading_in_results. Qed.

Lemma view_welcome (st : State) :
  select is_welcome (Home st) =
  when (negb (hasSearched st) && negb (isLoading st)) (Sym Microscope).
Proof. home_view no_welcome_in_results. Qed.

Lemma view_chips (st : State) :
  select is_filter_chips (Home st) =
  when (0 <? List.length (sourceTypes st))
       (FilterChipsC (sourceTypes st) (selectedTypes st)).
Proof. home_view no_chips_in_results. Qed.

Lemma view_count (st : State) :
  select (has_class "results-count") (Home st) =
  match results st with
  | Some r =>
      when (negb (isLoading st))
        (Elem "span" "results-count" []
           [Num (Plain (total_results r)); Text " evidence sources found"])
  | None => []
  end.
Proof. home_view count_in_results. Qed.

Lemma view_cards (st : State) :
  cards_of (Home st) =
  match results st with
  | Some r => if isLoading st then [] else evidence_cards r
  | None => []
  end.
Proof.
  unfold Home. rewrite cards_of_Elem, !flat_map_app, !flat_map_when.
  destruct (error st) as [e|], (results st) as [r|], (isLoading st);
    rewrite ?flat_map_when, ?cards_of_results_section; cbn; split_flags;
    cbn; rewrite ?app_nil_r; reflexivity.
Qed.

Lemma view_button (st : State) :
  In (Elem "button" "search-button"
        [("type", AStr "submit");
         ("disabled", ABool (isLoading st || negb (JS.truthy (JS.trim (query st)))))]
        [Text (if isLoading st then "SEARCHING..." else "FIND EVIDENCE")])
     (nodes (Home st)).
Proof. unfold Home. cbn [nodes flat_map app In]. do 12 right. now left. Qed.

(** ** Invariants of the page *)

Lemma setLoadingMessage_same (st : State) :
  setLoadingMessage (loadingMessage st) st = st.
Proof. now destruct st. Qed.

Lemma commit_state (before : bool) (p : Page) :
  exists m, state (commit before p) = setLoadingMessage m (state p).
Proof.
  unfold commit, rotator_effect, rotator_cleanup.
  destruct (Bool.eqb before (isLoading (state p))).
  - exists (loadingMessage (state p)). now rewrite setLoadingMessage_same.
  - cbn [state with_interval]. destruct (isLoading (state p)).
    + now exists (message_at 0).
    + exists (loadingMessage (state p)). cbn [state with_interval].
      now rewrite setLoadingMessage_same.
Qed.

Lemma commit_console (before : bool) (p : Page) :
  console_errors (commit before p) = console_errors p.
Proof.
  unfold commit, rotator_effect, rotator_cleanup.
  destruct (Bool.eqb before (isLoading (state p))); [reflexivity|].
  cbn [state with_interval]. now destruct (isLoading (state p)).
Qed.

Lemma handleSearch_state (p : Page) :
  JS.trim (query (state p)) <> "" ->
  exists m,
    state (handleSearch p) =
    setLoadingMessage m
      (setHasSearched true (setError None (setIsLoading true (state p)))).
Proof.
  intros Q. unfold handleSearch.
  destruct (JS.truthy (JS.trim (query (state p)))) eqn:E;
    [|apply JS_truthy_false in E; contradiction].
  cbn [negb]. apply commit_state.
Qed.

Lemma run_invariant (I : Page -> Prop) :
  (forall p e, I p -> I (step p e)) ->
  forall trace p, I p -> I (run p trace).
Proof.
  intros S trace. induction trace as [|e trace IH]; intros p H; [exact H|].
  unfold run. cbn [fold_left]. apply IH, S, H.
Qed.

Lemma rotator_ok_idle (p : Page) :
  rotator_ok p -> isLoading (state p) = false -> interval p = None.
Proof.
  unfold rotator_ok. destruct (interval p) as [iv|]; [|reflexivity].
  intros (L & _) F. rewrite L in F. discriminate.
Qed.

Lemma rotator_ok_busy (p : Page) :
  rotator_ok p -> isLoading (state p) = true ->
  exists iv, interval p = Some iv /\ delay iv = 2000 /\ elapsed iv < 2000 /\
             index iv < 8 /\ loadingMessage (state p) = message_at (index iv).
Proof.
  unfold rotator_ok. destruct (interval p) as [iv|].
  - intros (_ & H) _. now exists iv.
  - intros F L. rewrite L in F. discriminate.
Qed.

Lemma rotator_ok_frame (f : State -> State) (p : Page) :
  (forall st, isLoading (f st) = isLoading st) ->
  (forall st, loadingMessage (f st) = loadingMessage st) ->
  rotator_ok p -> rotator_ok (with_state f p).
Proof.
  intros FL FM. unfold rotator_ok. cbn [interval with_state state].
  destruct (interval p); now rewrite FL, ?FM.
Qed.

Lemma rotator_ok_handleSearch (p : Page) :
  rotator_ok p -> rotator_ok (handleSearch p).
Proof.
  intros R. unfold handleSearch.
  destruct (negb (JS.truthy (JS.trim (query (state p))))); [exact R|].
  destruct (isLoading (state p)) eqn:L.
  - destruct (rotator_ok_busy p R L) as (iv & I & H).
    unfold commit, rotator_ok. cbn. now rewrite I.
  - unfold commit, rotator_ok. cbn. repeat split; lia.
Qed.

Lemma rotator_ok_search_settled (o : Outcome SearchResponse) (p : Page) :
  rotator_ok p -> rotator_ok (search_settled o p).
Proof.
  intros R. unfold search_settled.
  destruct (isLoading (state p)) eqn:L.
  - unfold commit, rotator_ok. destruct (try_block o); reflexivity.
  - pose proof (rotator_ok_idle p R L) as I.
    unfold commit, rotator_ok. destruct (try_block o); cbn; now rewrite I.
Qed.

Lemma rotator_ok_tick (p : Page) : rotator_ok p -> rotator_ok (tick p).
Proof.
  intros R. unfold tick. destruct (interval p) as [iv|] eqn:I; [|exact R].
  unfold rotator_ok in R. rewrite I in R. destruct R as (L & D & E & X & M).
  rewrite D. destruct (Nat.eqb_spec (S (elapsed iv)) 2000) as [F | F].
  - unfold interval_callback, rotator_ok. cbn [interval with_interval state with_state
      delay elapsed index isLoading setLoadingMessage loadingMessage].
    change (List.length loadingMessages) with 8.
    repeat split; trivial; try lia. apply Nat.mod_upper_bound. discriminate.
  - unfold rotator_ok. cbn [interval with_interval state delay elapsed index].
    repeat split; trivial; lia.
Qed.

Lemma rotator_ok_step (p : Page) (e : Event) :
  rotator_ok p -> rotator_ok (step p e).
Proof.
  intros R. destruct e as [text| |key|v|o|o|]; cbn [step].
  - now apply rotator_ok_frame.
  - now apply rotator_ok_handleSearch.
  - unfold handleKeyPress. destruct (String.eqb key "Enter");
      [now apply rotator_ok_handleSearch | exact R].
  - now apply rotator_ok_frame.
  - now apply rotator_ok_search_settled.
  - unfold catalog_settled. destruct (catalog_body o);
      [exact R | now apply rotator_ok_frame].
  - now apply rotator_ok_tick.
Qed.

Lemma rotator_ok_mount : rotator_ok mount.
Proof. reflexivity. Qed.

(** X1.  On every page reached from the mounted one the interval is live
    exactly while the page is loading; it then has the delay 2000, a
    position below 2000 and an index below 8, and the message shown is the
    one at that index.  On a page that is not loading the passing of time
    changes nothing. *)
Theorem rotator_timer_invariant (trace : list Event) :
  rotator_ok (run mount trace) /\
  (isLoading (state (run mount trace)) = false ->
   forall ms, elapse ms (run mount trace) = run mount trace).
Proof.
  assert (rotator_ok (run mount trace)) as R
    by (apply run_invariant; [exact rotator_ok_step | exact rotator_ok_mount]).
  split; [exact R|]. intros L ms.
  apply elapse_without_interval. now apply rotator_ok_idle.
Qed.

(** ** The selection and the requests *)

Lemma NoDup_snoc (l : list string) (v : string) :
  NoDup l -> ~ In v l -> NoDup (l ++ [v]).
Proof.
  induction 1 as [|x l X N IH]; intros V; cbn.
  - constructor; [intros [] | constructor].
  - constructor.
    + rewrite in_app_iff. cbn. intros [H | [H | []]]; [contradiction|].
      apply V. now left.
    + apply IH. intros H. apply V. now right.
Qed.

Lemma toggle_NoDup (v : string) (l : list string) :
  NoDup l -> NoDup (toggle v l).
Proof.
  intros N. unfold toggle. destruct (JS.arr_includes l v) eqn:E.
  - now apply NoDup_filter.
  - apply NoDup_snoc; [exact N|]. rewrite <- arr_includes_In, E. discriminate.
Qed.

Lemma selectedTypes_step (p : Page) (e : Event) :
  selectedTypes (state (step p e)) =
  match e with
  | Toggled v => toggle v (selectedTypes (state p))
  | _ => selectedTypes (state p)
  end.
Proof.
  assert (forall q, selectedTypes (state (handleSearch q)) = selectedTypes (state q)) as HS.
  { intros q. unfold handleSearch.
    destruct (negb (JS.truthy (JS.trim (query (state q))))); [reflexivity|].
    match goal with |- context [commit ?b ?x] =>
      destruct (commit_state b x) as [m ->] end. reflexivity. }
  destruct e as [text| |key|v|o|o|]; cbn [step]; try reflexivity.
  - apply HS.
  - unfold handleKeyPress. destruct (String.eqb key "Enter"); [apply HS | reflexivity].
  - rewrite search_settled_state. now destruct (try_block o).
  - unfold catalog_settled. now destruct (catalog_body o).
  - unfold tick. destruct (interval p) as [iv|]; [|reflexivity].
    now destruct (S (elapsed iv) =? delay iv).
Qed.

Lemma NoDup_selected_step (p : Page) (e : Event) :
  NoDup (selectedTypes (state p)) -> NoDup (selectedTypes (state (step p e))).
Proof.
  intros N. rewrite selectedTypes_step. destruct e; trivial. now apply toggle_NoDup.
Qed.

(** X2.  However the chips are clicked, the selection never holds a value
    twice. *)
Theorem selection_never_duplicates (trace : list Event) :
  NoDup (selectedTypes (state (run mount trace))).
Proof.
  apply (run_invariant (fun p => NoDup (selectedTypes (state p)))).
  - exact NoDup_selected_step.
  - constructor.
Qed.

Lemma tick_fetches (p : Page) : fetches (tick p) = fetches p.
Proof.
  unfold tick. destruct (interval p) as [iv|]; [|reflexivity].
  now destruct (S (elapsed iv) =? delay iv).
Qed.

Lemma catalog_settled_fetches (o : Outcome (list SourceType)) (p : Page) :
  fetches (catalog_settled o p) = fetches p.
Proof. unfold catalog_settled. now destruct (catalog_body o). Qed.

Lemma fetches_step (p : Page) (e : Event) :
  fetches (step p e) =
  (fetches p ++
   if submits p e
   then [search_request (JS.trim (query (state p))) (selectedTypes (state p))]
   else [])%list.
Proof.
  assert (forall q, fetches (handleSearch q) =
            (fetches q ++
             if JS.truthy (JS.trim (query (state q)))
             then [search_request (JS.trim (query (state q))) (selectedTypes (state q))]
             else [])%list) as HS.
  { intros q. destruct (JS.truthy (JS.trim (query (state q)))) eqn:E.
    - apply handleSearch_fetches. intros F. rewrite F in E. discriminate.
    - apply JS_truthy_false in E. rewrite handleSearch_blank by exact E.
      now rewrite app_nil_r. }
  destruct e as [text| |key|v|o|o|]; cbn [step submits]; rewrite ?app_nil_r;
    try reflexivity.
  - apply HS.
  - unfold handleKeyPress. destruct (String.eqb key "Enter"); cbn [andb];
      [apply HS | now rewrite app_nil_r].
  - apply search_settled_fetches.
  - apply catalog_settled_fetches.
  - apply tick_fetches.
Qed.

Lemma submits_is_submission (p : Page) (e : Event) :
  submits p e = true -> is_submission e = true.
Proof.
  destruct e; cbn; trivial. intros H. now apply andb_true_iff in H as [H _].
Qed.

(** X4.  Requests are only ever added, and only by submissions: along any
    sequence of events the log grows by at most one request per form
    submission or Enter key press, nothing is removed from it, and a
    sequence without such an event (typing, other keys, chip clicks,
    settling fetches, timer ticks) leaves it as it is. *)
Theorem requests_only_on_submit (p : Page) (trace : list Event) :
  (exists added,
     fetches (run p trace) = (fetches p ++ added)%list /\
     List.length added <= List.length (filter is_submission trace)) /\
  (existsb is_submission trace = false -> fetches (run p trace) = fetches p).
Proof.
  assert (exists added,
            fetches (run p trace) = (fetches p ++ added)%list /\
            List.length added <= List.length (filter is_submission trace)) as A.
  { revert p. induction trace as [|e trace IH]; intros p.
    - exists []. cbn. now rewrite app_nil_r.
    - unfold run. cbn [fold_left]. fold (run (step p e) trace).
      destruct (IH (step p e)) as (l & F & L). rewrite F, fetches_step.
      destruct (submits p e) eqn:S.
      + exists (search_request (JS.trim (query (state p)))
                  (selectedTypes (state p)) :: l).
        split; [now rewrite <- app_assoc|].
        cbn [filter]. rewrite (submits_is_submission p e S). cbn. lia.
      + exists l. split; [now rewrite app_nil_r|].
        cbn [filter]. destruct (is_submission e); cbn; lia. }
  split; [exact A|]. intros N. destruct A as (l & F & L).
  assert (filter is_submission trace = []) as E.
  { clear -N. induction trace as [|e trace IH]; [reflexivity|].
    cbn in N |- *. apply orb_false_iff in N as [-> N]. now apply IH. }
  rewrite E in L. destruct l; [now rewrite app_nil_r in F | cbn in L; lia].
Qed.

Lemma JS_trimEnd_keeps_head (c : ascii) (s : string) :
  JS.is_white_space c = false ->
  JS.trimEnd (String c s) = String c (JS.trimEnd s).
Proof. intros W. cbn [JS.trimEnd]. rewrite W. now destruct (JS.trimEnd s). Qed.

Lemma JS_trimEnd_keeps_tail (c : ascii) (s : string) :
  JS.trimEnd s <> "" -> JS.trimEnd (String c s) = String c (JS.trimEnd s).
Proof. intros N. cbn [JS.trimEnd]. destruct (JS.trimEnd s); [contradiction | reflexivity]. Qed.

Lemma JS_trimEnd_idempotent (s : string) :
  JS.trimEnd (JS.trimEnd s) = JS.trimEnd s.
Proof.
  induction s as [|c s IH]; [reflexivity|].
  destruct (string_dec (JS.trimEnd s) "") as [E | E].
  - cbn [JS.trimEnd]. rewrite E.
    destruct (JS.is_white_space c) eqn:W; [reflexivity|].
    cbn [JS.trimEnd]. now rewrite W.
  - rewrite (JS_trimEnd_keeps_tail c s E).
    rewrite JS_trimEnd_keeps_tail by now rewrite IH.
    now rewrite IH.
Qed.

Lemma JS_trimStart_head (s : string) :
  JS.trimStart s = "" \/
  exists c t, JS.trimStart s = String c t /\ JS.is_white_space c = false.
Proof.
  induction s as [|c s IH]; [now left|].
  cbn [JS.trimStart]. destruct (JS.is_white_space c) eqn:W; [exact IH|].
  right. now exists c, s.
Qed.

(** Trimming twice is trimming once. *)
Lemma JS_trim_idempotent (s : string) : JS.trim (JS.trim s) = JS.trim s.
Proof.
  unfold JS.trim. destruct (JS_trimStart_head s) as [-> | (c & t & -> & W)].
  - reflexivity.
  - rewrite (JS_trimEnd_keeps_head c t W). cbn [JS.trimStart]. rewrite W.
    rewrite <- (JS_trimEnd_keeps_head c t W). apply JS_trimEnd_idempotent.
Qed.

Lemma sent_by_search_step (p : Page) (e : Event) :
  NoDup (selectedTypes (state p)) ->
  submits p e = true ->
  sent_by_search (search_request (JS.trim (query (state p))) (selectedTypes (state p))).
Proof.
  intros N S. exists (JS.trim (query (state p))), (selectedTypes (state p)).
  repeat split; trivial.
  - intros E. destruct e; cbn [submits] in S; try discriminate;
      rewrite E in S; cbn in S; try discriminate.
    now rewrite andb_false_r in S.
  - apply JS_trim_idempotent.
Qed.

(** X3.  The requests of a page reached from the mounted one are the
    catalog request, once and first, followed by search requests only; each
    of these is a POST to /api/search whose query is not empty and has no
    whitespace at either end and whose filter values are distinct. *)
Theorem request_log_shape (trace : list Event) :
  exists searches,
    fetches (run mount trace) = catalog_request :: searches /\
    Forall sent_by_search searches.
Proof.
  apply (run_invariant (fun p =>
           NoDup (selectedTypes (state p)) /\
           exists searches, fetches p = catalog_request :: searches /\
                            Forall sent_by_search searches)).
  - intros p e (N & l & F & A). split; [now apply NoDup_selected_step|].
    rewrite fetches_step, F. destruct (submits p e) eqn:S.
    + exists (l ++ [search_request (JS.trim (query (state p)))
                      (selectedTypes (state p))])%list.
      split; [reflexivity|]. apply Forall_app. split; [exact A|].
      constructor; [|constructor]. now apply (sent_by_search_step p e).
    + exists l. now rewrite app_nil_r.
  - split; [constructor|]. exists []. split; [reflexivity | constructor].
Qed.

Lemma hasSearched_step (p : Page) (e : Event) :
  hasSearched (state (step p e)) = hasSearched (state p) || submits p e.
Proof.
  assert (forall q, hasSearched (state (handleSearch q)) =
            hasSearched (state q) || JS.truthy (JS.trim (query (state q)))) as HS.
  { intros q. destruct (JS.truthy (JS.trim (query (state q)))) eqn:E.
    - destruct (handleSearch_state q) as [m ->].
      + intros F. rewrite F in E. discriminate.
      + cbn. now rewrite orb_true_r.
    - apply JS_truthy_false in E. rewrite handleSearch_blank by exact E.
      now rewrite orb_false_r. }
  destruct e as [text| |key|v|o|o|]; cbn [step submits]; rewrite ?orb_false_r;
    try reflexivity.
  - apply HS.
  - unfold handleKeyPress. destruct (String.eqb key "Enter"); cbn [andb];
      [apply HS | now rewrite orb_false_r].
  - rewrite search_settled_state. now destruct (try_block o).
  - unfold catalog_settled. now destruct (catalog_body o).
  - unfold tick. destruct (interval p) as [iv|]; [|reflexivity].
    now destruct (S (elapsed iv) =? delay iv).
Qed.

(** X5.  [hasSearched] is set by the first request and by nothing else, and
    never goes back: on every page reached from the mounted one it is true
    exactly when a search request has been issued, and once true it stays
    true whatever happens. *)
Theorem hasSearched_iff_search_sent (trace more : list Event) :
  (hasSearched (state (run mount trace)) = true <->
   2 <= List.length (fetches (run mount trace))) /\
  (hasSearched (state (run mount trace)) = true ->
   hasSearched (state (run (run mount trace) more)) = true).
Proof.
  split.
  - apply (run_invariant (fun p =>
             1 <= List.length (fetches p) /\
             (hasSearched (state p) = true <-> 2 <= List.length (fetches p)))).
    + intros p e (L & H). rewrite hasSearched_step, fetches_step, length_app.
      destruct (submits p e); cbn [List.length]; rewrite ?orb_true_r, ?orb_false_r.
      * split; [lia|]. split; [lia | reflexivity].
      * rewrite Nat.add_0_r. now split.
    + cbn. split; [lia|]. split; [discriminate | lia].
  - apply (run_invariant (fun p => hasSearched (state p) = true)).
    intros p e H. rewrite hasSearched_step, H. reflexivity.
Qed.

(** X6.  The "Ready to Explore" panel is on the mounted page, and after a
    search has been started it is never shown again, whatever follows. *)
Theorem welcome_never_returns (p : Page) (trace : list Event) :
  JS.trim (query (state p)) <> "" ->
  select is_welcome (Home (state mount)) = [Sym Microscope] /\
  select is_welcome (Home (state (run (handleSearch p) trace))) = [].
Proof.
  intros Q. split; [reflexivity|].
  rewrite view_welcome.
  assert (hasSearched (state (run (handleSearch p) trace)) = true) as ->.
  { apply (run_invariant (fun q => hasSearched (state q) = true)).
    - intros q e H. rewrite hasSearched_step, H. reflexivity.
    - destruct (handleSearch_state p Q) as [m ->]. reflexivity. }
  reflexivity.
Qed.

(** X7.  Starting a search hides what the last one left: no evidence card
    and no error banner is shown while the page is loading, only the status
    line with the current message; the earlier results stay in the state,
    the earlier error is cleared. *)
Theorem loading_hides_stale_output (p : Page) :
  JS.trim (query (state p)) <> "" ->
  cards_of (Home (state (handleSearch p))) = [] /\
  select (has_class "error-message") (Home (state (handleSearch p))) = [] /\
  select (has_class "loading-text") (Home (state (handleSearch p))) =
    [Elem "p" "loading-text" [] [Text (loadingMessage (state (handleSearch p)))]] /\
  results (state (handleSearch p)) = results (state p) /\
  error (state (handleSearch p)) = None.
Proof.
  intros Q. rewrite view_cards, view_banner, view_loading.
  destruct (handleSearch_state p Q) as [m ->]. cbn.
  repeat split. now destruct (results (state p)).
Qed.


(** X9.  A successful response does not touch the error: when it settles
    after a failed one (two searches overlapping), the page shows the
    results of the one together with the error of the other. *)
Theorem success_keeps_error
    (o : Outcome SearchResponse) (data : SearchResponse) (p : Page) :
  non_success o = true ->
  error (state (search_settled (Responded true (JsonParsed data)) p)) =
    error (state p) /\
  (exists m,
     error (state (search_settled (Responded true (JsonParsed data))
                     (search_settled o p))) = Some m) /\
  cards_of (Home (state (search_settled (Responded true (JsonParsed data))
                           (search_settled o p)))) = evidence_cards data.
Proof.
  intros N. rewrite view_cards, !search_settled_state.
  destruct (try_block o) as [t | d] eqn:T.
  - cbn. repeat split. now exists (catch_message t).
  - destruct o as [t | [|] [t|d']]; cbn in *; discriminate.
Qed.

Lemma handleSearch_query (p : Page) :
  query (state (handleSearch p)) = query (state p).
Proof.
  unfold handleSearch.
  destruct (negb (JS.truthy (JS.trim (query (state p))))); [reflexivity|].
  match goal with |- context [commit ?b ?x] =>
    destruct (commit_state b x) as [m ->] end. reflexivity.
Qed.

(** X10.  Nothing counts the requests in flight: of two searches started
    one after the other, the first to settle ends the loading state and
    clears the interval while the other request is still out. *)
Theorem first_settle_ends_loading (o : Outcome SearchResponse) (p : Page) :
  JS.trim (query (state p)) <> "" ->
  List.length (fetches (handleSearch (handleSearch p))) =
    List.length (fetches p) + 2 /\
  isLoading (state (handleSearch (handleSearch p))) = true /\
  isLoading (state (search_settled o (handleSearch (handleSearch p)))) = false /\
  interval (search_settled o (handleSearch (handleSearch p))) = None.
Proof.
  intros Q.
  assert (JS.trim (query (state (handleSearch p))) <> "") as Q2
    by now rewrite handleSearch_query.
  assert (isLoading (state (handleSearch (handleSearch p))) = true) as L
    by (destruct (handleSearch_state _ Q2) as [m ->]; reflexivity).
  repeat split.
  - rewrite !handleSearch_fetches by assumption. rewrite !length_app. cbn. lia.
  - exact L.
  - rewrite search_settled_state. reflexivity.
  - now apply search_settled_clears.
Qed.

(** X11.  While the page is loading the search button is disabled, yet
    the Enter key still starts a search: [handleKeyPress] calls
    [handleSearch], which does not look at [isLoading], and a further
    request is issued. *)
Theorem enter_bypasses_disabled_button (p : Page) :
  isLoading (state p) = true ->
  JS.trim (query (state p)) <> "" ->
  In (Elem "button" "search-button"
        [("type", AStr "submit"); ("disabled", ABool true)]
        [Text "SEARCHING..."])
     (nodes (Home (state p))) /\
  fetches (step p (KeyPressed "Enter")) =
    (fetches p ++
     [search_request (JS.trim (query (state p))) (selectedTypes (state p))])%list.
Proof.
  intros L Q. split.
  - pose proof (view_button (state p)) as B. now rewrite L in B.
  - cbn [step]. unfold handleKeyPress. cbn. now apply handleSearch_fetches.
Qed.

(** X12.  The catalog loader does not look at the status of the response:
    for a status in 2xx or outside it, a body that parses and carries a
    [source_types] list makes that list the catalog, and nothing is logged.
    The filter section then shows that list with the current selection,
    and is left out when the list is empty. *)
Theorem catalog_success_ignores_status
    (ok : bool) (catalog : list SourceType) (p : Page) :
  sourceTypes (state (catalog_settled (Responded ok (JsonParsed catalog)) p)) = catalog /\
  console_errors (catalog_settled (Responded ok (JsonParsed catalog)) p) =
    console_errors p /\
  select is_filter_chips
    (Home (state (catalog_settled (Responded ok (JsonParsed catalog)) p))) =
    match catalog with
    | [] => []
    | _ :: _ => [FilterChipsC catalog (selectedTypes (state p))]
    end.
Proof.
  rewrite view_chips. cbn. repeat split. now destruct catalog.
Qed.

(** X13.  The header of the results shows [total_results] as the server
    sent it, not the number of cards: with an empty [evidence_cards] the
    page shows that number above the "No Evidence Found" panel. *)
Theorem results_header_shows_server_total (data : SearchResponse) (p : Page) :
  select (has_class "results-count")
    (Home (state (search_settled (Responded true (JsonParsed data)) p))) =
    [Elem "span" "results-count" []
       [Num (Plain (total_results data)); Text " evidence sources found"]] /\
  (evidence_cards data = [] ->
   In (empty_state MagnifyingGlass "No Evidence Found"
         "Try rephrasing your query or removing filters to see more results.")
      (nodes (results_section data))).
Proof.
  rewrite view_count, search_settled_state. split; [reflexivity|].
  intros E. unfold results_section. rewrite E. cbn. do 11 right. now left.
Qed.

(** X19.  Every request of a page reached from the mounted one goes to one
    of two addresses under one base, /api/source-types or /api/search.  The
    base is http://localhost:8000 when the page is served from the host
    named exactly "localhost", and empty (same origin) for every other host
    and where there is no window. *)
Theorem requests_go_to_two_endpoints (trace : list Event) (r : Request) :
  In r (fetches (run mount trace)) ->
  (url r = API_BASE_URL ++ "/api/source-types" \/
   url r = API_BASE_URL ++ "/api/search") /\
  (location_hostname = Some "localhost" -> API_BASE_URL = "http://localhost:8000") /\
  (location_hostname <> Some "localhost" -> API_BASE_URL = "").
Proof.
  intros H. split; [|split].
  - revert r H. apply Forall_forall.
    apply (run_invariant (fun p =>
             Forall (fun r => url r = API_BASE_URL ++ "/api/source-types" \/
                              url r = API_BASE_URL ++ "/api/search") (fetches p))).
    + intros p e F. rewrite fetches_step. apply Forall_app. split; [exact F|].
      destruct (submits p e); constructor; [now right | constructor].
    + constructor; [now left | constructor].
  - intros E. unfold API_BASE_URL. now rewrite E.
  - intros N. unfold API_BASE_URL. destruct location_hostname as [h|]; [|reflexivity].
    destruct (String.eqb_spec h "localhost") as [-> | _]; [now elim N | reflexivity].
Qed.

(** ** The filter chips *)

Lemma arr_includes_toggle (v : string) (l : list string) (x : string) :
  JS.arr_includes (toggle v l) x =
  if String.eqb x v then negb (JS.arr_includes l v) else JS.arr_includes l x.
Proof.
  destruct (String.eqb_spec x v) as [-> | N].
  - destruct (JS.arr_includes l v) eqn:E; cbn [negb].
    + destruct (JS.arr_includes (toggle v l) v) eqn:F; [|reflexivity].
      apply arr_includes_In in E, F. apply toggle_In in F.
      destruct F as [[_ F] | [_ F]]; [now elim F | contradiction].
    + apply arr_includes_In, toggle_In. right. split; [reflexivity|].
      rewrite <- arr_includes_In, E. discriminate.
  - destruct (JS.arr_includes l x) eqn:E.
    + apply arr_includes_In, toggle_In. left. split; [|exact N].
      now apply arr_includes_In.
    + destruct (JS.arr_includes (toggle v l) x) eqn:F; [|reflexivity].
      apply arr_includes_In, toggle_In in F.
      destruct F as [[F _] | [F _]]; [|contradiction].
      apply arr_includes_In in F. rewrite F in E. discriminate.
Qed.

Lemma chips_of_FilterChips (catalog : list SourceType) (selected : list string) :
  select (has_tag "button") (FilterChips catalog selected) =
  map (chip selected) catalog.
Proof.
  unfold FilterChips. rewrite select_Elem. cbn [has_tag String.eqb flat_map].
  rewrite (select_Elem _ "div" "filter-container"). cbn.
  rewrite app_nil_r. induction catalog as [|t l IH]; [reflexivity|].
  cbn [map flat_map]. rewrite IH. reflexivity.
Qed.

(** X14.  The filter section shows one chip per catalog entry, in catalog
    order.  After a click on the chip of [v] that chip is marked active
    exactly when it was not before, and every chip of another value is as
    it was. *)
Theorem chip_click_flips_that_chip
    (catalog : list SourceType) (selected : list string) (v : string) :
  select (has_tag "button") (FilterChips catalog selected) =
    map (chip selected) catalog /\
  select (has_tag "button") (FilterChips catalog (toggle v selected)) =
    map (fun type =>
           if String.eqb (value type) v
           then Elem "button"
                  ("filter-chip " ++
                     (if JS.arr_includes selected v then "" else "active"))
                  [("key", AStr (value type));
                   ("onClick", AHandler (OnToggle (value type)))]
                  [Text (label type)]
           else chip selected type)
        catalog.
Proof.
  rewrite !chips_of_FilterChips. split; [reflexivity|].
  apply map_ext. intros t. unfold chip. rewrite arr_includes_toggle.
  destruct (String.eqb_spec (value t) v) as [E | N]; [|reflexivity].
  now destruct (JS.arr_includes selected v).
Qed.

Lemma filter_keeps_all (v : string) (l : list string) :
  ~ In v l -> filter (fun t => negb (String.eqb t v)) l = l.
Proof.
  induction l as [|x l IH]; intros N; [reflexivity|].
  cbn [filter]. destruct (String.eqb_spec x v) as [-> | _].
  - elim N. now left.
  - cbn [negb]. rewrite IH; [reflexivity|]. intros H. apply N. now right.
Qed.

(** X15.  Two toggles of a value that was not selected give back the very
    same array.  Two toggles of a selected value remove every occurrence of
    it and put it back once, at the end. *)
Theorem toggle_round_trip_exact (v : string) (selected : list string) :
  (~ In v selected -> toggle v (toggle v selected) = selected) /\
  (In v selected ->
   toggle v (toggle v selected) =
   (filter (fun t => negb (String.eqb t v)) selected ++ [v])%list).
Proof.
  split; intros H.
  - assert (JS.arr_includes selected v = false) as E.
    { destruct (JS.arr_includes selected v) eqn:E; [|reflexivity].
      apply arr_includes_In in E. contradiction. }
    unfold toggle at 2. rewrite E. unfold toggle.
    assert (JS.arr_includes (selected ++ [v]) v = true) as ->
      by (apply arr_includes_In, in_app_iff; right; now left).
    rewrite filter_app, filter_keeps_all by exact H.
    cbn [filter]. rewrite String.eqb_refl. cbn. now rewrite app_nil_r.
  - assert (JS.arr_includes selected v = true) as E by now apply arr_includes_In.
    unfold toggle at 2. rewrite E. unfold toggle.
    assert (JS.arr_includes (filter (fun t => negb (String.eqb t v)) selected) v
            = false) as ->; [|reflexivity].
    destruct (JS.arr_includes (filter (fun t => negb (String.eqb t v)) selected) v)
      eqn:F; [|reflexivity].
    apply arr_includes_In, filter_In in F. destruct F as [_ F].
    now rewrite String.eqb_refl in F.
Qed.

(** ** The domain of a link, against the specification's wording *)

Lemma length_append (a b : string) :
  String.length (a ++ b) = String.length a + String.length b.
Proof. induction a as [|c a IH]; cbn; [reflexivity | now rewrite IH]. Qed.

Lemma JS_replace_length (s pat rep : string) :
  JS.includes s pat = true ->
  String.length (JS.replace s pat rep) + String.length pat =
  String.length s + String.length rep.
Proof.
  induction s as [|c s IH]; cbn [JS.includes JS.replace].
  - destruct (JS.startsWith "" pat) eqn:E; [|discriminate]. intros _.
    apply JS_startsWith_spec in E as [post E]. rewrite E at 1.
    rewrite JS_drop_app. destruct pat; [|discriminate].
    cbn in E. subst post. cbn. rewrite length_append. cbn. lia.
  - destruct (JS.startsWith (String c s) pat) eqn:E.
    + intros _. apply JS_startsWith_spec in E as [post E]. rewrite E.
      rewrite JS_drop_app, !length_append. lia.
    + intros H. cbn [String.length]. specialize (IH H). lia.
Qed.

(** X16.  For a link that parses, [getDomain] gives the host with a leading
    "www." removed exactly when the host starts with "www." or holds no
    "www." at all; for every other host the answer differs. *)
Theorem getDomain_meets_wording_iff (u host : string) :
  URL_hostname u = Some host ->
  (getDomain u = strip_leading_www host <->
   JS.startsWith host "www." = true \/ ~ occurs "www." host).
Proof.
  intros H. unfold getDomain, strip_leading_www. rewrite H.
  destruct (JS.startsWith host "www.") eqn:S.
  - split; [now left|]. intros _.
    apply JS_startsWith_spec in S as [post ->].
    rewrite JS_replace_prefix. reflexivity.
  - destruct (JS.includes host "www.") eqn:I.
    + split.
      * intros E. pose proof (JS_replace_length host "www." "" I) as L.
        rewrite E in L. cbn in L. lia.
      * intros [F | F]; [discriminate|].
        apply JS_includes_false in F. rewrite F in I. discriminate.
    + split; [|intros _; now apply JS_replace_absent].
      intros _. right. now apply JS_includes_false.
Qed.

(** ** The relation icon and the case of the text *)

Lemma JS_toLowerCase_app (a b : string) :
  JS.toLowerCase (a ++ b) = JS.toLowerCase a ++ JS.toLowerCase b.
Proof. induction a as [|c a IH]; cbn; [reflexivity | now rewrite IH]. Qed.

Lemma JS_lower_char_idempotent (c : ascii) :
  JS.lower_char (JS.lower_char c) = JS.lower_char c.
Proof. destruct c as [[] [] [] [] [] [] [] []]; reflexivity. Qed.

Lemma JS_toLowerCase_idempotent (s : string) :
  JS.toLowerCase (JS.toLowerCase s) = JS.toLowerCase s.
Proof.
  induction s as [|c s IH]; cbn [JS.toLowerCase]; [reflexivity|].
  now rewrite JS_lower_char_idempotent, IH.
Qed.

(** X17.  The keywords are looked for as substrings, whatever their case
    and whatever surrounds them: a text that holds "support" in any mix of
    cases, inside a longer word or not, gets the check mark. *)
Theorem relation_icon_keyword_any_case (pre kw post : string) :
  JS.toLowerCase kw = "support" ->
  getRelationIcon (pre ++ kw ++ post) = CheckMark.
Proof.
  intros K. rewrite getRelationIcon_cases, !JS_toLowerCase_app, K.
  assert (JS.includes (JS.toLowerCase pre ++ "support" ++ JS.toLowerCase post)
            "support" = true) as ->; [|reflexivity].
  apply JS_includes_spec. now exists (JS.toLowerCase pre), (JS.toLowerCase post).
Qed.

(** X18.  The icon depends on the text only up to case: lower-casing the
    text beforehand changes nothing, and two texts with the same lower-case
    form get the same icon. *)
Theorem relation_icon_ignores_case (relation other : string) :
  getRelationIcon (JS.toLowerCase relation) = getRelationIcon relation /\
  (JS.toLowerCase relation = JS.toLowerCase other ->
   getRelationIcon relation = getRelationIcon other).
Proof.
  split.
  - now rewrite !getRelationIcon_cases, JS_toLowerCase_idempotent.
  - intros E. now rewrite !getRelationIcon_cases, E.
Qed.

End Platform.

(** ** Concrete runs *)

Example getDomain_example :
  getDomain basic_URL_hostname "https://www.example.com/x" = "example.com".
Proof. reflexivity. Qed.

Example getDomain_not_a_url :
  getDomain basic_URL_hostname "not a url" = "source".
Proof. reflexivity. Qed.

(** C1, where the code departs from it.  The host name of
    https://news.www.example.com/ is news.www.example.com, which does not
    start with "www."; [getDomain] nevertheless removes the "www." inside
    it and answers news.example.com. *)
Theorem getDomain_strips_inner_www :
  basic_URL_hostname "https://news.www.example.com/" = Some "news.www.example.com" /\
  JS.startsWith "news.www.example.com" "www." = false /\
  getDomain basic_URL_hostname "https://news.www.example.com/" = "news.example.com".
Proof. repeat split. Qed.

(** C8, where the code departs from it.  A catalog request answered with
    a status outside 2xx has failed; [handleSearch] treats such a response
    as a failure, but the loader never looks at [ok] and takes the body.
    Here the answer has status 500 and a body with one option: the catalog
    does not remain empty, nothing is logged, and the filter section is
    shown. *)
Theorem catalog_non_2xx_taken_as_success :
  non_success
    (@Responded (list SourceType) false (JsonParsed [mkSourceType "news" "News"]))
    = true /\
  sourceTypes
    (state (catalog_settled
              (Responded false (JsonParsed [mkSourceType "news" "News"]))
              (mount None)))
    = [mkSourceType "news" "News"] /\
  console_errors
    (catalog_settled (Responded false (JsonParsed [mkSourceType "news" "News"]))
       (mount None))
    = [] /\
  select is_filter_chips
    (Home (state (catalog_settled
                    (Responded false (JsonParsed [mkSourceType "news" "News"]))
                    (mount None))))
    = [FilterChipsC [mkSourceType "news" "News"] []] /\
  try_block (Responded false (JsonParsed (mkResponse "tea" [] 0)))
    = inl (ErrorObject "Search failed. Please try again.").
Proof. repeat split. Qed.

(** A page with the given text typed into the search box, right after
    mounting outside localhost. *)
Example typed_page_query :
  query (state (step None (mount None) (Typed "Is coffee healthy?"))) = "Is coffee healthy?".
Proof. reflexivity. Qed.

Lemma handleSearch_blank_query_noop_run :
  JS.trim "  " = "" /\
  handleSearch None (step None (mount None) (Typed "  ")) = step None (mount None) (Typed "  ").
Proof.
  split; [reflexivity|].
  exact (proj1 (handleSearch_blank_query_noop None
                  (step None (mount None) (Typed "  ")) eq_refl)).
Defined.

Lemma handleSearch_one_request_run :
  fetches (handleSearch None (step None (mount None) (Typed " Is coffee healthy? "))) =
  [mkRequest "/api/source-types" "GET" [] None;
   mkRequest "/api/search" "POST" [("Content-Type", "application/json")]
     (Some (JObject [("query", JString "Is coffee healthy?");
                     ("source_types", JNull)]))].
Proof.
  assert (JS.trim (query (state (step None (mount None) (Typed " Is coffee healthy? "))))
          <> "") as N by (vm_compute; discriminate).
  exact (proj1 (handleSearch_one_request None
                  (step None (mount None) (Typed " Is coffee healthy? ")) N)).
Defined.


Lemma rotator_cycles_while_loading_run :
  loadingMessage
    (state (run None (handleSearch None (step None (mount None) (Typed "Is coffee healthy?")))
                (repeat Millisecond 2000 ++ [Toggled "news"; Millisecond])))
  = "BYPASSING KNOWLEDGE BARRIERS...".
Proof.
  assert (JS.trim (query (state (step None (mount None) (Typed "Is coffee healthy?"))))
          <> "") as N by (vm_compute; discriminate).
  destruct (rotator_cycles_while_loading None
              (step None (mount None) (Typed "Is coffee healthy?"))
              (repeat Millisecond 2000 ++ [Toggled "news"; Millisecond])
              eq_refl N eq_refl) as (_ & _ & _ & M & _).
  rewrite M. vm_compute. reflexivity.
Defined.

Lemma catalog_failure_is_silent_run :
  catalog_body (FetchRejected (ErrorObject "Failed to fetch"))
    = inl (ErrorObject "Failed to fetch") /\
  sourceTypes (state (catalog_settled (FetchRejected (ErrorObject "Failed to fetch"))
                        (mount None))) = [] /\
  console_errors (catalog_settled (FetchRejected (ErrorObject "Failed to fetch"))
                    (mount None))
    = [("Failed to fetch source types:", ErrorObject "Failed to fetch")].
Proof.
  split; [reflexivity|].
  destruct (catalog_failure_is_silent None
              (FetchRejected (ErrorObject "Failed to fetch"))
              (ErrorObject "Failed to fetch") (mount None) eq_refl)
    as (_ & S & C & _).
  split; [exact S | exact C].
Defined.

Lemma getRelationIcon_priority_run :
  mentions "Partially CONTRADICTS" "support" = false /\
  mentions "Partially CONTRADICTS" "contradict" = true /\
  getRelationIcon "Partially CONTRADICTS" = CrossMark.
Proof.
  split; [reflexivity|]. split; [reflexivity|].
  exact (proj1 (proj2 (getRelationIcon_priority "Partially CONTRADICTS"))
           eq_refl eq_refl).
Defined.

Lemma toggle_twice_same_members_run :
  ~ In "news" (selectedTypes (state (mount None))) /\
  In "news" (selectedTypes (state (toggleSourceType "news" (mount None)))).
Proof.
  assert (~ In "news" (selectedTypes (state (mount None)))) as N
    by (intros []).
  split; [exact N|].
  exact (proj1 (proj2 (proj2 (toggle_twice_same_members "news" (mount None)))) N).
Defined.

(** ** Concrete runs of the further properties *)

Lemma rotator_timer_invariant_run :
  elapse 5000 (run None (mount None) [Typed "x"; Toggled "news"]) =
  run None (mount None) [Typed "x"; Toggled "news"].
Proof.
  exact (proj2 (rotator_timer_invariant None [Typed "x"; Toggled "news"])
           eq_refl 5000).
Defined.

Lemma hasSearched_iff_search_sent_run :
  hasSearched (state (run None (run None (mount None) [Typed "tea"; Submitted])
                        [SearchSettled (FetchRejected NonError); Typed ""])) = true.
Proof.
  exact (proj2 (hasSearched_iff_search_sent None [Typed "tea"; Submitted]
                  [SearchSettled (FetchRejected NonError); Typed ""]) eq_refl).
Defined.

Lemma welcome_never_returns_run :
  select is_welcome
    (Home (state (run None
                    (handleSearch None (step None (mount None) (Typed "tea")))
                    [SearchSettled (FetchRejected NonError); Typed ""]))) = [].
Proof.
  assert (JS.trim (query (state (step None (mount None) (Typed "tea")))) <> "") as N
    by (vm_compute; discriminate).
  exact (proj2 (welcome_never_returns None (step None (mount None) (Typed "tea"))
                  [SearchSettled (FetchRejected NonError); Typed ""] N)).
Defined.

Lemma loading_hides_stale_output_run :
  cards_of (Home (state (handleSearch None (step None (mount None) (Typed "tea"))))) = [].
Proof.
  assert (JS.trim (query (state (step None (mount None) (Typed "tea")))) <> "") as N
    by (vm_compute; discriminate).
  exact (proj1 (loading_hides_stale_output None
                  (step None (mount None) (Typed "tea")) N)).
Defined.


Lemma success_keeps_error_run :
  non_success (@FetchRejected SearchResponse (ErrorObject "Failed to fetch")) = true /\
  error (state (search_settled (Responded true (JsonParsed (mkResponse "tea" [] 0)))
                  (search_settled (FetchRejected (ErrorObject "Failed to fetch"))
                     (mount None)))) =
  error (state (search_settled (FetchRejected (ErrorObject "Failed to fetch"))
                  (mount None))).
Proof.
  split; [reflexivity|].
  exact (proj1 (success_keeps_error (FetchRejected (ErrorObject "Failed to fetch"))
                  (mkResponse "tea" [] 0)
                  (search_settled (FetchRejected (ErrorObject "Failed to fetch"))
                     (mount None))
                  eq_refl)).
Defined.

Lemma first_settle_ends_loading_run :
  isLoading
    (state (search_settled (FetchRejected NonError)
              (handleSearch None
                 (handleSearch None (step None (mount None) (Typed "tea")))))) = false.
Proof.
  assert (JS.trim (query (state (step None (mount None) (Typed "tea")))) <> "") as N
    by (vm_compute; discriminate).
  exact (proj1 (proj2 (proj2 (first_settle_ends_loading None (FetchRejected NonError)
                                (step None (mount None) (Typed "tea")) N)))).
Defined.

Lemma enter_bypasses_disabled_button_run :
  List.length
    (fetches (step None
                (handleSearch None (step None (mount None) (Typed "tea")))
                (KeyPressed "Enter"))) = 3.
Proof.
  assert (JS.trim (query (state (handleSearch None
            (step None (mount None) (Typed "tea"))))) <> "") as N
    by (vm_compute; discriminate).
  rewrite (proj2 (enter_bypasses_disabled_button None
                    (handleSearch None (step None (mount None) (Typed "tea")))
                    eq_refl N)).
  reflexivity.
Defined.

Lemma results_header_shows_server_total_run :
  In (empty_state MagnifyingGlass "No Evidence Found"
        "Try rephrasing your query or removing filters to see more results.")
     (nodes (results_section (mkResponse "tea" [] 7))).
Proof.
  exact (proj2 (results_header_shows_server_total (mkResponse "tea" [] 7)
                  (mount None)) eq_refl).
Defined.

Lemma toggle_round_trip_exact_run :
  toggle "news" (toggle "news" ["blog"; "academic"]) = ["blog"; "academic"].
Proof.
  apply (proj1 (toggle_round_trip_exact "news" ["blog"; "academic"])).
  intros [H | [H | []]]; discriminate.
Defined.

Lemma getDomain_meets_wording_iff_run :
  basic_URL_hostname "https://news.www.example.com/" = Some "news.www.example.com" /\
  getDomain basic_URL_hostname "https://news.www.example.com/"
    <> strip_leading_www "news.www.example.com".
Proof.
  split; [reflexivity|]. intros E.
  apply (proj1 (getDomain_meets_wording_iff basic_URL_hostname
                  "https://news.www.example.com/" "news.www.example.com" eq_refl))
    in E.
  destruct E as [E | E]; [discriminate|].
  apply E. exists "news.", "example.com". reflexivity.
Defined.

Lemma relation_icon_keyword_any_case_run :
  getRelationIcon "UnSupported claim" = CheckMark.
Proof.
  exact (relation_icon_keyword_any_case "Un" "Support" "ed claim" eq_refl).
Defined.

Lemma relation_icon_ignores_case_run :
  getRelationIcon "NEUTRAL" = getRelationIcon "Neutral".
Proof.
  exact (proj2 (relation_icon_ignores_case "NEUTRAL" "Neutral") eq_refl).
Defined.

Lemma requests_only_on_submit_run :
  fetches (run None (mount None) [Typed "tea"; KeyPressed "a"; Toggled "news"; Millisecond])
  = fetches (mount None).
Proof.
  exact (proj2 (requests_only_on_submit None (mount None)
                  [Typed "tea"; KeyPressed "a"; Toggled "news"; Millisecond]) eq_refl).
Defined.

Lemma requests_go_to_two_endpoints_run :
  In (search_request (Some "localhost") "tea" [])
     (fetches (run (Some "localhost") (mount (Some "localhost"))
                 [Typed " tea "; Submitted])) /\
  API_BASE_URL (Some "localhost") = "http://localhost:8000".
Proof.
  assert (In (search_request (Some "localhost") "tea" [])
            (fetches (run (Some "localhost") (mount (Some "localhost"))
                        [Typed " tea "; Submitted]))) as H
    by (right; left; reflexivity).
  split; [exact H|].
  exact (proj1 (proj2 (requests_go_to_two_endpoints (Some "localhost")
                         [Typed " tea "; Submitted] _ H)) eq_refl).
Defined.
